(** * The video pipeline of [main_without_db.py]: classifier, scanner,
      status writer, record processor and run loop.

    Python [str] values are modelled as [string]: a character of the model
    is a code point below 256, and [len], slices, [lower] and [strip] act
    on these as Python does; text with other code points is outside the
    model.  Python [int] values are modelled as [Z].  The three remote
    services the class [VideoProcessor] talks to (the worksheet, the transcription
    client and the language-model client) are collaborators whose answers
    the program cannot predict: they are functions over an abstract oracle
    state, and every call to them and every [logging] call is recorded as
    an event. *)

From Stdlib Require Import String Ascii List ZArith Bool Lia DecimalString Sorted.
Import ListNotations.

Local Open Scope string_scope.
Local Open Scope Z_scope.

(** ** Python string primitives *)

Module PyStr.

(** [len(s)] *)
Definition len (s : string) : Z := Z.of_nat (String.length s).

(** [bool(s)]: a string is truthy when it is not empty. *)
Definition truthy (s : string) : bool :=
  match s with
  | EmptyString => false
  | String _ _ => true
  end.

Fixpoint take (n : nat) (s : string) : string :=
  match n, s with
  | O, _ => EmptyString
  | S _, EmptyString => EmptyString
  | S k, String c r => String c (take k r)
  end.

(** [s[:n]] for a non-negative bound [n]. *)
Definition slice_to (s : string) (n : Z) : string := take (Z.to_nat n) s.

(** [str(n)] for an integer. *)
Definition str_of_int (n : Z) : string := NilZero.string_of_int (Z.to_int n).

(** [c.lower()] on one character: the capitals [A]..[Z] (65..90) and, from
    128 on, the capitals 192..222 but for the multiplication sign 215, go
    32 places up; the other characters stay. *)
Definition lower_ascii (c : ascii) : ascii :=
  let n := nat_of_ascii c in
  if ((Nat.leb 65 n && Nat.leb n 90)
      || (Nat.leb 192 n && Nat.leb n 214)
      || (Nat.leb 216 n && Nat.leb n 222))%bool
  then ascii_of_nat (n + 32) else c.

(** [s.lower()] *)
Fixpoint lower (s : string) : string :=
  match s with
  | EmptyString => EmptyString
  | String c r => String (lower_ascii c) (lower r)
  end.

(** [s.startswith(d)] *)
Fixpoint startswith (d s : string) : bool :=
  match d, s with
  | EmptyString, _ => true
  | String _ _, EmptyString => false
  | String a d', String c s' => (Ascii.eqb a c && startswith d' s')%bool
  end.

(** [d in s]: [d] occurs in [s] as a contiguous substring. *)
Fixpoint contains (d s : string) : bool :=
  (startswith d s ||
   match s with
   | EmptyString => false
   | String _ s' => contains d s'
   end)%bool.

(** The characters [str.strip()] removes, those for which [c.isspace()]
    holds: tab, line feed, vertical tab, form feed, carriage return
    (9..13), the four separators 28..31, the space (32), the next-line
    character U+0085 (133) and the no-break space U+00A0 (160). *)
Definition is_space (c : ascii) : bool :=
  let n := nat_of_ascii c in
  ((Nat.leb 9 n && Nat.leb n 13) || (Nat.leb 28 n && Nat.leb n 32)
   || Nat.eqb n 133 || Nat.eqb n 160)%bool.

(** [s.lstrip()] *)
Fixpoint lstrip (s : string) : string :=
  match s with
  | EmptyString => EmptyString
  | String c r => if is_space c then lstrip r else s
  end.

(** [s.rstrip()] *)
Fixpoint rstrip (s : string) : string :=
  match s with
  | EmptyString => EmptyString
  | String c r =>
      let r' := rstrip r in
      if (is_space c && negb (truthy r'))%bool then EmptyString
      else String c r'
  end.

(** [s.strip()] *)
Definition strip (s : string) : string := rstrip (lstrip s).

(** [repr] of a list of identifiers, as an f-string prints it. *)
Definition repr_list (l : list string) : string :=
  "[" ++ String.concat ", " (map (fun a => "'" ++ a ++ "'") l) ++ "]".

(** A string of [n] copies of one character. *)
Fixpoint replicate (n : nat) (c : ascii) : string :=
  match n with
  | O => EmptyString
  | S k => String c (replicate k c)
  end.

End PyStr.
Import PyStr.

(** ** URL classifier *)

Definition supported_domains : list string :=
  [ "youtube.com"; "youtu.be";
    "twitter.com"; "x.com";
    "vimeo.com";
    "tiktok.com";
    "instagram.com";
    "facebook.com"; "fb.com";
    "linkedin.com";
    "reddit.com" ].

Definition is_supported_video_url (url : string) : bool :=
  existsb (fun domain => contains domain (lower url)) supported_domains.

(** ** Exceptions, collaborators and events *)

(** The exceptions the program can see.  [except Exception] catches both;
    [except SupadataError] only the first. *)
Inductive exn : Type :=
| SupadataError (msg : string)
| Exception (msg : string).

(** [str(e)] *)
Definition str_of_exn (e : exn) : string :=
  match e with
  | SupadataError msg => msg
  | Exception msg => msg
  end.

Inductive result (A : Type) : Type :=
| Ok (a : A)
| Raise (e : exn).
Arguments Ok {A} a.
Arguments Raise {A} e.

(** What [supadata.transcript] may hand back: an object with a [content]
    attribute, a dict with a ['content'] key, a plain string, or an object
    of some other shape, given by its public attributes and their [str].
    A [content] of [None] stands for a value that has no [len]. *)
Inductive transcript_response : Type :=
| TranscriptObject (content : option string) (lang : option string)
| TranscriptDict (content : option string) (lang : option string)
| TranscriptStr (s : string)
| TranscriptOther (attrs : list (string * string)).

(** What [generate_content] hands back: [response.parsed] is either a
    [TranscriptResponse] with its [text], or [None]. *)
Record gen_response : Type := { parsed : option string }.

Record Collaborators (O : Type) : Type := {
  sheet_get_all_values : O -> result (list (list string)) * O;
  sheet_update_acell : string -> string -> O -> result unit * O;
  supadata_transcript : string -> O -> result transcript_response * O;
  genai_generate_content : string -> string -> O -> result gen_response * O
}.
Arguments sheet_get_all_values {O} _ _.
Arguments sheet_update_acell {O} _ _ _ _.
Arguments supadata_transcript {O} _ _ _.
Arguments genai_generate_content {O} _ _ _ _.

Inductive level : Type := INFO | WARNING | ERROR.

Inductive event : Type :=
| GetAllValues
| UpdateAcell (cell value : string)
| Transcript (url : string)
| GenerateContent (contents system_instruction : string)
| Log (lvl : level) (msg : string).

(** The cell writes among a run of events, in order. *)
Fixpoint sheet_writes (evs : list event) : list (string * string) :=
  match evs with
  | [] => []
  | UpdateAcell cell value :: r => (cell, value) :: sheet_writes r
  | _ :: r => sheet_writes r
  end.

(** The contents sent to the language model among a run of events. *)
Fixpoint sent_contents (evs : list event) : list string :=
  match evs with
  | [] => []
  | GenerateContent contents _ :: r => contents :: sent_contents r
  | _ :: r => sent_contents r
  end.

(** ** The monad of the program: oracle state, raised exceptions, emitted
       events *)

Definition M (O A : Type) : Type := O -> result A * O * list event.

Definition ret {O A} (a : A) : M O A := fun o => (Ok a, o, []).

Definition bind {O A B} (m : M O A) (k : A -> M O B) : M O B :=
  fun o =>
    match m o with
    | (Ok a, o1, ev1) =>
        match k a o1 with
        | (r, o2, ev2) => (r, o2, (ev1 ++ ev2)%list)
        end
    | (Raise e, o1, ev1) => (Raise e, o1, ev1)
    end.

Definition raise {O A} (e : exn) : M O A := fun o => (Raise e, o, []).

(** [try: body except Exception as e: handler] *)
Definition try_except {O A} (body : M O A) (handler : exn -> M O A) : M O A :=
  fun o =>
    match body o with
    | (Ok a, o1, ev1) => (Ok a, o1, ev1)
    | (Raise e, o1, ev1) =>
        match handler e o1 with
        | (r, o2, ev2) => (r, o2, (ev1 ++ ev2)%list)
        end
    end.

Definition logging {O} (lvl : level) (msg : string) : M O unit :=
  fun o => (Ok tt, o, [Log lvl msg]).

(** A call to a collaborator: its answer, the new oracle state, and the
    event that records the call. *)
Definition call {O A} (ev : event) (f : O -> result A * O) : M O A :=
  fun o => let (r, o1) := f o in (r, o1, [ev]).

Declare Scope py_scope.
Delimit Scope py_scope with py.
Notation "x <- m ;; k" := (bind m (fun x => k))
  (at level 100, m at next level, right associativity) : py_scope.
Notation "m ;; k" := (bind m (fun _ => k))
  (at level 100, right associativity) : py_scope.
Local Open Scope py_scope.

(** ** The methods of [VideoProcessor] *)

Record WorklistEntry : Type := { url : string; row : Z }.

Definition max_chars : Z := 100000.
Definition max_cell_chars : Z := 50000.
Definition truncation_marker : string := "... [TRUNCATED]".

(** [len(x)] on a possibly-[None] value. *)
Definition len_of {O} (x : option string) : M O Z :=
  match x with
  | Some s => ret (len s)
  | None => raise (Exception "object of type 'NoneType' has no len()")
  end.

Definition or_unknown (lang : option string) : string :=
  match lang with
  | Some l => l
  | None => "unknown"
  end.

Fixpoint lookup_attr (name : string) (attrs : list (string * string))
  : option string :=
  match attrs with
  | [] => None
  | (n, v) :: r => if String.eqb n name then Some v else lookup_attr name r
  end.

(** The [for attr_name in [...]] loop of [get_transcript]: the first of
    the names the object has, with the [str] of its value. *)
Fixpoint first_attr (names : list string) (attrs : list (string * string))
  : option (string * string) :=
  match names with
  | [] => None
  | n :: ns =>
      match lookup_attr n attrs with
      | Some v => Some (n, v)
      | None => first_attr ns attrs
      end
  end.

(** [not x] for an [Optional[str]]. *)
Definition falsy (x : option string) : bool :=
  match x with
  | None => true
  | Some s => negb (truthy s)
  end.

(** [if not x: raise Exception(msg)], after which [x] is a string. *)
Definition require {O} (x : option string) (msg : string) : M O string :=
  match x with
  | Some s => if truthy s then ret s else raise (Exception msg)
  | None => raise (Exception msg)
  end.

(** The body of the [for] loop of [get_new_urls], over the rows from
    [row_idx] on. *)
Fixpoint scan_rows (all_values : list (list string)) (row_idx : Z)
  : list WorklistEntry :=
  match all_values with
  | [] => []
  | r :: rest =>
      let new_urls := scan_rows rest (row_idx + 1) in
      if (Z.of_nat (List.length r) =? 0) then new_urls
      else
        let url := if (Z.of_nat (List.length r) >? 0)
                   then strip (nth 0 r "") else "" in
        let status := if (Z.of_nat (List.length r) >? 2)
                      then strip (nth 2 r "") else "" in
        if (negb (truthy url) || negb (is_supported_video_url url))%bool
        then new_urls
        else if (existsb (String.eqb status)
                   ["PROCESSING"; "COMPLETED"; "ERROR"]
                 || truthy (strip status))%bool
        then new_urls
        else {| url := url; row := row_idx |} :: new_urls
  end.

Section VideoProcessor.

Context {O : Type} (C : Collaborators O).

(** The module-level [prompt], imported from [prompt.py]. *)
Variable prompt : string.

Definition get_transcript (url : string) : M O (option string) :=
  try_except
    (logging INFO ("Getting transcript for URL: " ++ url) ;;
     transcript_response <-
       call (Transcript url) (supadata_transcript C url) ;;
     match transcript_response with
     | TranscriptObject transcript_text lang =>
         n <- len_of transcript_text ;;
         logging INFO ("Transcript retrieved (" ++ str_of_int n
                       ++ " characters, language: " ++ or_unknown lang ++ ")") ;;
         ret transcript_text
     | TranscriptDict transcript_text lang =>
         n <- len_of transcript_text ;;
         logging INFO ("Transcript retrieved (" ++ str_of_int n
                       ++ " characters, language: " ++ or_unknown lang ++ ")") ;;
         ret transcript_text
     | TranscriptStr s =>
         logging INFO ("Transcript retrieved (" ++ str_of_int (len s)
                       ++ " characters)") ;;
         ret (Some s)
     | TranscriptOther attrs =>
         logging WARNING ("Unknown transcript object. Available attributes: "
                          ++ repr_list (map fst attrs)) ;;
         match first_attr ["text"; "transcript"; "data"; "result"] attrs with
         | Some (attr_name, content) =>
             logging INFO ("Found content in '" ++ attr_name ++ "' attribute") ;;
             ret (Some content)
         | None =>
             logging WARNING "Could not extract content from transcript object" ;;
             ret None
         end
     end)
    (fun e =>
       match e with
       | SupadataError _ =>
           logging ERROR ("Supadata error for " ++ url ++ ": " ++ str_of_exn e) ;;
           ret None
       | Exception _ =>
           logging ERROR ("Unexpected error getting transcript for " ++ url
                          ++ ": " ++ str_of_exn e) ;;
           ret None
       end).

Definition analyze_with_gemini (transcript system_prompt : string)
  : M O (option string) :=
  try_except
    (transcript <-
       (if len transcript >? max_chars then
          logging WARNING ("Transcript truncated to " ++ str_of_int max_chars
                           ++ " characters") ;;
          ret (slice_to transcript max_chars ++ truncation_marker)
        else ret transcript) ;;
     response <-
       call (GenerateContent transcript system_prompt)
            (genai_generate_content C transcript system_prompt) ;;
     result <-
       match parsed response with
       | Some text => ret text
       | None => raise (Exception "'NoneType' object has no attribute 'text'")
       end ;;
     logging INFO "Gemini analysis completed" ;;
     ret (Some result))
    (fun e =>
       logging ERROR ("Gemini analysis failed: " ++ str_of_exn e) ;;
       ret None).

Definition get_new_urls : M O (list WorklistEntry) :=
  try_except
    (all_values <- call GetAllValues (sheet_get_all_values C) ;;
     let new_urls := scan_rows all_values 1 in
     logging INFO ("Found " ++ str_of_int (Z.of_nat (List.length new_urls))
                   ++ " new URLs to process") ;;
     ret new_urls)
    (fun e =>
       logging ERROR ("Failed to get URLs from sheet: " ++ str_of_exn e) ;;
       ret []).

(** The text [update_sheet_status] puts in column B for a non-empty
    [result]. *)
Definition cell_text (result : string) : string :=
  if len result >? max_cell_chars
  then slice_to result max_cell_chars ++ truncation_marker
  else result.

Definition update_sheet_status (row : Z) (status result : string) : M O unit :=
  try_except
    ((if truthy result then
        let result := cell_text result in
        try_except
          (call (UpdateAcell ("B" ++ str_of_int row) result)
                (sheet_update_acell C ("B" ++ str_of_int row) result) ;;
           logging INFO ("Updated result in B" ++ str_of_int row))
          (fun e =>
             logging ERROR ("Failed to update result in B" ++ str_of_int row
                            ++ ": " ++ str_of_exn e))
      else ret tt) ;;
     try_except
       (call (UpdateAcell ("C" ++ str_of_int row) status)
             (sheet_update_acell C ("C" ++ str_of_int row) status) ;;
        logging INFO ("Updated status in C" ++ str_of_int row ++ ": " ++ status))
       (fun e =>
          logging ERROR ("Failed to update status in C" ++ str_of_int row
                         ++ ": " ++ str_of_exn e)))
    (fun e =>
       logging ERROR ("Failed to update sheet row " ++ str_of_int row
                      ++ ": " ++ str_of_exn e)).

Definition process_url (url_data : WorklistEntry) : M O bool :=
  let url := url_data.(url) in
  let row := url_data.(row) in
  logging INFO ("Processing URL: " ++ url ++ " (row " ++ str_of_int row ++ ")") ;;
  update_sheet_status row "PROCESSING" "" ;;
  try_except
    (transcript <- get_transcript url ;;
     transcript <- require transcript
                     "Could not retrieve transcript using Supadata" ;;
     logging INFO ("Retrieved transcript (" ++ str_of_int (len transcript)
                   ++ " characters)") ;;
     analysis <- analyze_with_gemini transcript prompt ;;
     analysis <- require analysis "Gemini analysis failed" ;;
     update_sheet_status row "COMPLETED" analysis ;;
     logging INFO ("Successfully processed URL: " ++ url) ;;
     ret true)
    (fun e =>
       let error_msg := "Error: " ++ str_of_exn e in
       logging ERROR ("Failed to process " ++ url ++ ": " ++ error_msg) ;;
       update_sheet_status row "ERROR" error_msg ;;
       ret false).

(** The [for url_data in new_urls] loop of [run], with its two counters. *)
Fixpoint run_loop (new_urls : list WorklistEntry)
  (processed_count error_count : Z) : M O (Z * Z) :=
  match new_urls with
  | [] => ret (processed_count, error_count)
  | url_data :: rest =>
      counts <-
        try_except
          (ok <- process_url url_data ;;
           if (ok : bool) then ret (processed_count + 1, error_count)
           else ret (processed_count, error_count + 1))
          (fun e =>
             logging ERROR ("Unexpected error processing " ++ url_data.(url)
                            ++ ": " ++ str_of_exn e) ;;
             ret (processed_count, error_count + 1)) ;;
      run_loop rest (fst counts) (snd counts)
  end.

Definition run : M O unit :=
  logging INFO "Starting video automation pipeline" ;;
  try_except
    (new_urls <- get_new_urls ;;
     match new_urls with
     | [] => logging INFO "No new URLs to process"
     | _ :: _ =>
         counts <- run_loop new_urls 0 0 ;;
         logging INFO ("Processing complete. Success: " ++ str_of_int (fst counts)
                       ++ ", Errors: " ++ str_of_int (snd counts))
     end)
    (fun e => logging ERROR ("Pipeline failed: " ++ str_of_exn e)).

End VideoProcessor.

(** ** Collaborators with fixed answers, to run the program on examples *)

Definition scripted (values : result (list (list string)))
  (write : string -> string -> result unit)
  (transcript : string -> result transcript_response)
  (generate : string -> string -> result gen_response)
  : Collaborators unit :=
  {| sheet_get_all_values := fun o => (values, o);
     sheet_update_acell := fun cell value o => (write cell value, o);
     supadata_transcript := fun url o => (transcript url, o);
     genai_generate_content :=
       fun contents system_instruction o =>
         (generate contents system_instruction, o) |}.

(** A worksheet whose reads and writes all succeed. *)
Definition write_ok (cell value : string) : result unit := Ok tt.

(** A worksheet that refuses every write to column B. *)
Definition write_B_fails (cell value : string) : result unit :=
  if startswith "B" cell then Raise (Exception "APIError: quota exceeded")
  else Ok tt.

Definition transcript_hello (url : string) : result transcript_response :=
  Ok (TranscriptObject (Some "hello world") (Some "en")).

Definition transcript_fails (url : string) : result transcript_response :=
  Raise (SupadataError "transcript-unavailable").

Definition generate_summary (contents system_instruction : string)
  : result gen_response :=
  Ok {| parsed := Some "a summary" |}.

Definition example_entry : WorklistEntry :=
  {| url := "https://youtu.be/abc"; row := 1 |}.

(** [d] occurs in [s]: the meaning of Python's [d in s] on strings. *)
Definition occurs_in (d s : string) : Prop :=
  exists pre post, s = pre ++ d ++ post.

(** The first character of [d] exists and is not one [strip] removes. *)
Definition head_not_space (d : string) : bool :=
  match d with
  | EmptyString => false
  | String a _ => negb (is_space a)
  end.

(** The cells of a row the scanner looks at; an absent column reads as the
    empty string. *)
Definition url_cell (r : list string) : string := nth 0 r "".
Definition status_cell (r : list string) : string := nth 2 r "".

(** A row the scanner keeps, in the words of the scanner's contract: the
    URL (stripped) is not empty and passes the classifier, and the status
    (stripped) is empty. *)
Definition eligible (r : list string) : bool :=
  (truthy (strip (url_cell r))
   && is_supported_video_url (strip (url_cell r))
   && negb (truthy (strip (status_cell r))))%bool.

(** The cell writes one call of the status writer is to attempt, in the
    words of its contract: the result column first when there is a result,
    then always the status column. *)
Definition writer_writes (row : Z) (status result : string)
  : list (string * string) :=
  if truthy result
  then [("B" ++ str_of_int row, cell_text result); ("C" ++ str_of_int row, status)]
  else [("C" ++ str_of_int row, status)].

(** The log entries among a run of events. *)
Fixpoint log_entries (evs : list event) : list (level * string) :=
  match evs with
  | [] => []
  | Log lvl msg :: r => (lvl, msg) :: log_entries r
  | _ :: r => log_entries r
  end.

(** The contents [analyze_with_gemini] sends for a transcript. *)
Definition sent_text (transcript : string) : string :=
  if len transcript >? max_chars
  then slice_to transcript max_chars ++ truncation_marker
  else transcript.

(** The status values written to column C of a row among a run of
    events, in order. *)
Definition status_values (row : Z) (evs : list event) : list string :=
  map snd
    (filter (fun w => String.eqb (fst w) ("C" ++ str_of_int row))
       (sheet_writes evs)).

(** The URLs asked of the transcription service among a run of events. *)
Fixpoint transcript_requests (evs : list event) : list string :=
  match evs with
  | [] => []
  | Transcript url :: r => url :: transcript_requests r
  | _ :: r => transcript_requests r
  end.

(** The requests made to the language model among a run of events, each
    with its contents and its system instruction. *)
Fixpoint generate_requests (evs : list event) : list (string * string) :=
  match evs with
  | [] => []
  | GenerateContent contents system_instruction :: r =>
      (contents, system_instruction) :: generate_requests r
  | _ :: r => generate_requests r
  end.

(** The three ways one attempt of [process_url] can go, each with the
    steps it is made of and the events it leaves, in order: the fetcher
    yields no usable text; the summarizer yields none; both yield one. *)
Section Attempt.

Context {O : Type} (C : Collaborators O).
Variable prompt : string.

Inductive attempt (e : WorklistEntry) (o : O)
  : bool -> O -> list event -> Prop :=
| attempt_no_transcript o1 ev1 t o2 ev2 o3 ev3 :
    update_sheet_status C (row e) "PROCESSING" "" o = (Ok tt, o1, ev1) ->
    get_transcript C (url e) o1 = (Ok t, o2, ev2) ->
    falsy t = true ->
    update_sheet_status C (row e) "ERROR"
      "Error: Could not retrieve transcript using Supadata" o2
      = (Ok tt, o3, ev3) ->
    attempt e o false o3
      (Log INFO ("Processing URL: " ++ url e ++ " (row "
                 ++ str_of_int (row e) ++ ")")
       :: ev1 ++ ev2
       ++ Log ERROR ("Failed to process " ++ url e ++ ": "
                     ++ "Error: Could not retrieve transcript using Supadata")
       :: ev3)%list
| attempt_no_summary o1 ev1 tx o2 ev2 a o3 ev3 o4 ev4 :
    update_sheet_status C (row e) "PROCESSING" "" o = (Ok tt, o1, ev1) ->
    get_transcript C (url e) o1 = (Ok (Some tx), o2, ev2) ->
    truthy tx = true ->
    analyze_with_gemini C tx prompt o2 = (Ok a, o3, ev3) ->
    falsy a = true ->
    update_sheet_status C (row e) "ERROR" "Error: Gemini analysis failed" o3
      = (Ok tt, o4, ev4) ->
    attempt e o false o4
      (Log INFO ("Processing URL: " ++ url e ++ " (row "
                 ++ str_of_int (row e) ++ ")")
       :: ev1 ++ ev2
       ++ Log INFO ("Retrieved transcript (" ++ str_of_int (len tx)
                    ++ " characters)")
       :: ev3
       ++ Log ERROR ("Failed to process " ++ url e ++ ": "
                     ++ "Error: Gemini analysis failed")
       :: ev4)%list
| attempt_completed o1 ev1 tx o2 ev2 summary o3 ev3 o4 ev4 :
    update_sheet_status C (row e) "PROCESSING" "" o = (Ok tt, o1, ev1) ->
    get_transcript C (url e) o1 = (Ok (Some tx), o2, ev2) ->
    truthy tx = true ->
    analyze_with_gemini C tx prompt o2 = (Ok (Some summary), o3, ev3) ->
    truthy summary = true ->
    update_sheet_status C (row e) "COMPLETED" summary o3 = (Ok tt, o4, ev4) ->
    attempt e o true o4
      (Log INFO ("Processing URL: " ++ url e ++ " (row "
                 ++ str_of_int (row e) ++ ")")
       :: ev1 ++ ev2
       ++ Log INFO ("Retrieved transcript (" ++ str_of_int (len tx)
                    ++ " characters)")
       :: ev3 ++ ev4
       ++ [Log INFO ("Successfully processed URL: " ++ url e)])%list.

End Attempt.

(** The writes to column C among a run of events, in order. *)
Definition status_column_writes (evs : list event) : list (string * string) :=
  filter (fun w => startswith "C" (fst w)) (sheet_writes evs).

(** The status an attempt ends with. *)
Definition terminal_status (ok : bool) : string :=
  if ok then "COMPLETED" else "ERROR".

(** The two status writes of one attempt on an entry. *)
Definition attempt_statuses (e : WorklistEntry) (ok : bool)
  : list (string * string) :=
  [("C" ++ str_of_int (row e), "PROCESSING");
   ("C" ++ str_of_int (row e), terminal_status ok)].

(** How many of the attempts ended well, and how many did not. *)
Definition successes (outcomes : list bool) : Z :=
  Z.of_nat (List.length (filter (fun ok => ok) outcomes)).
Definition failures (outcomes : list bool) : Z :=
  Z.of_nat (List.length (filter negb outcomes)).

(** ** Start-up: [validate_environment], the [setup_*] methods,
       [__init__] and [main] *)

(** [os.getenv]: the value of a variable, or [None]. *)
Definition environ : Type := string -> option string.

(** The class [Config], read from the environment. *)
Record Config : Type := {
  GEMINI_API_KEY : option string;
  SUPADATA_API_KEY : option string;
  GOOGLE_CREDENTIALS : option string;
  SHEET_NAME : option string;
  WORKSHEET_NAME : string
}.

Definition config_of (getenv : environ) : Config :=
  {| GEMINI_API_KEY := getenv "GEMINI_API_KEY";
     SUPADATA_API_KEY := getenv "SUPADATA_API_KEY";
     GOOGLE_CREDENTIALS := getenv "GOOGLE_CREDENTIALS";
     SHEET_NAME := getenv "SHEET_NAME";
     WORKSHEET_NAME := match getenv "WORKSHEET_NAME" with
                       | Some name => name
                       | None => "Sheet1"
                       end |}.

(** [str(x)] for an [Optional[str]], as an f-string prints it. *)
Definition str_of_optional (x : option string) : string :=
  match x with
  | Some s => s
  | None => "None"
  end.

Definition required_vars : list string :=
  ["GEMINI_API_KEY"; "SUPADATA_API_KEY"; "GOOGLE_CREDENTIALS"; "SHEET_NAME"].

(** [[var for var in required_vars if not os.getenv(var)]] *)
Definition missing_vars (getenv : environ) : list string :=
  filter (fun var => falsy (getenv var)) required_vars.

(** What the three [setup_*] methods build, each a step that may raise:
    the worksheet (credentials parsed, authorised, spreadsheet and
    worksheet opened), the client of the language model and the client of
    the transcription service. *)
Record Services (O : Type) : Type := {
  open_worksheet :
    option string -> option string -> string -> O -> result unit * O;
  genai_Client : option string -> O -> result unit * O;
  new_Supadata : option string -> O -> result unit * O
}.
Arguments open_worksheet {O} _ _ _ _ _.
Arguments genai_Client {O} _ _ _.
Arguments new_Supadata {O} _ _ _.

(** A step of a service that leaves no event of its own. *)
Definition perform {O A} (f : O -> result A * O) : M O A :=
  fun o => let (r, o1) := f o in (r, o1, []).

Section Startup.

Context {O : Type} (C : Collaborators O) (S : Services O).
Variable prompt : string.
Variable getenv : environ.

Definition validate_environment : M O unit :=
  match missing_vars getenv with
  | _ :: _ =>
      raise (Exception ("Missing required environment variables: "
                        ++ repr_list (missing_vars getenv)))
  | [] => logging INFO "All environment variables validated"
  end.

Definition setup_google_sheets : M O unit :=
  try_except
    (perform (open_worksheet S (GOOGLE_CREDENTIALS (config_of getenv))
                (SHEET_NAME (config_of getenv))
                (WORKSHEET_NAME (config_of getenv))) ;;
     logging INFO ("Connected to Google Sheet: "
                   ++ str_of_optional (SHEET_NAME (config_of getenv))))
    (fun e =>
       logging ERROR ("Failed to setup Google Sheets: " ++ str_of_exn e) ;;
       raise e).

Definition setup_gemini : M O unit :=
  try_except
    (perform (genai_Client S (GEMINI_API_KEY (config_of getenv))) ;;
     logging INFO "Gemini AI client initialized")
    (fun e =>
       logging ERROR ("Failed to setup Gemini: " ++ str_of_exn e) ;;
       raise e).

Definition setup_supadata : M O unit :=
  try_except
    (perform (new_Supadata S (SUPADATA_API_KEY (config_of getenv))) ;;
     logging INFO "Supadata client initialized")
    (fun e =>
       logging ERROR ("Failed to setup Supadata: " ++ str_of_exn e) ;;
       raise e).

Definition __init__ : M O unit :=
  validate_environment ;;
  setup_google_sheets ;;
  setup_gemini ;;
  setup_supadata.

Definition main : M O unit :=
  try_except
    (__init__ ;;
     run C prompt)
    (fun e => logging ERROR ("Fatal error: " ++ str_of_exn e)).

End Startup.

(** Services that all answer, and an environment with the four variables
    set, to run the start-up on examples. *)
Definition services_ok : Services unit :=
  {| open_worksheet := fun _ _ _ o => (Ok tt, o);
     genai_Client := fun _ o => (Ok tt, o);
     new_Supadata := fun _ o => (Ok tt, o) |}.

Definition services_no_sheet : Services unit :=
  {| open_worksheet :=
       fun _ _ _ o => (Raise (Exception "SpreadsheetNotFound"), o);
     genai_Client := fun _ o => (Ok tt, o);
     new_Supadata := fun _ o => (Ok tt, o) |}.

Definition getenv_complete : environ :=
  fun var =>
    if existsb (String.eqb var) required_vars then Some "value" else None.

Definition getenv_partial : environ :=
  fun var =>
    if String.eqb var "GEMINI_API_KEY" then Some "key"
    else if String.eqb var "SHEET_NAME" then Some ""
    else if String.eqb var "GOOGLE_CREDENTIALS" then Some "{}"
    else None.

(** ** A worksheet that keeps what is written to it *)

Definition cells : Type := string -> string.

Definition set_cell (m : cells) (cell value : string) : cells :=
  fun c => if String.eqb c cell then value else m c.

(** The three columns of row [i]. *)
Definition sheet_row (m : cells) (i : Z) : list string :=
  [m ("A" ++ str_of_int i); m ("B" ++ str_of_int i); m ("C" ++ str_of_int i)].

(** The [n] rows from row [first] on. *)
Fixpoint sheet_rows (m : cells) (first : Z) (n : nat) : list (list string) :=
  match n with
  | O => []
  | S k => sheet_row m first :: sheet_rows m (first + 1) k
  end.

Record Worksheet : Type := { cell_value : cells; row_count : nat }.

(** The collaborators around such a worksheet: reads return its rows,
    writes succeed and change the one cell they name; the two services
    are any functions over a state of their own. *)
Definition memory_worksheet {O : Type}
  (transcript : string -> O -> result transcript_response * O)
  (generate : string -> string -> O -> result gen_response * O)
  : Collaborators (Worksheet * O) :=
  {| sheet_get_all_values :=
       fun s => (Ok (sheet_rows (cell_value (fst s)) 1 (row_count (fst s))), s);
     sheet_update_acell :=
       fun cell value s =>
         (Ok tt,
          ({| cell_value := set_cell (cell_value (fst s)) cell value;
              row_count := row_count (fst s) |}, snd s));
     supadata_transcript :=
       fun url s => let (r, o) := transcript url (snd s) in (r, (fst s, o));
     genai_generate_content :=
       fun contents system_instruction s =>
         let (r, o) := generate contents system_instruction (snd s) in
         (r, (fst s, o)) |}.

(** The worksheet [later] has the rows of [earlier], the same column A,
    and a status wherever [earlier] had one. *)
Definition keeps (earlier later : Worksheet) : Prop :=
  row_count later = row_count earlier
  /\ (forall c, startswith "A" c = true ->
                cell_value later c = cell_value earlier c)
  /\ (forall c, startswith "C" c = true ->
                truthy (strip (cell_value earlier c)) = true ->
                truthy (strip (cell_value later c)) = true).

(** * Properties *)

(** ** Strings *)

Lemma startswith_iff d s :
  startswith d s = true <-> exists post, s = d ++ post.
Proof.
  revert s. induction d as [|a d IH]; intros s; simpl.
  - split; [intros _; now exists s | reflexivity].
  - destruct s as [|c s].
    + split; [discriminate | intros [post H]; discriminate].
    + rewrite andb_true_iff, Ascii.eqb_eq, IH. split.
      * intros [-> [post ->]]. now exists post.
      * intros [post H]. injection H as -> ->. split; [reflexivity | now exists post].
Qed.

Lemma contains_iff d s : contains d s = true <-> occurs_in d s.
Proof.
  unfold occurs_in. induction s as [|c s IH].
  - simpl. rewrite orb_false_r, startswith_iff. split.
    + intros [post H]. now exists "", post.
    + intros [pre [post H]]. destruct pre; [now exists post | discriminate].
  - cbn [contains]. rewrite orb_true_iff, startswith_iff, IH. split.
    + intros [[post H] | [pre [post H]]].
      * now exists "", post.
      * exists (String c pre), post. simpl. now rewrite H.
    + intros [pre [post H]]. destruct pre as [|c' pre]; simpl in H.
      * left. now exists post.
      * right. injection H as _ H. now exists pre, post.
Qed.

Lemma lower_ascii_idem c : lower_ascii (lower_ascii c) = lower_ascii c.
Proof.
  destruct c as [[] [] [] [] [] [] [] []]; reflexivity.
Qed.

Lemma lower_idem s : lower (lower s) = lower s.
Proof.
  induction s as [|c s IH]; simpl; [reflexivity|].
  now rewrite lower_ascii_idem, IH.
Qed.

Lemma is_space_lower c : is_space (lower_ascii c) = is_space c.
Proof.
  destruct c as [[] [] [] [] [] [] [] []]; reflexivity.
Qed.

Lemma truthy_lower s : truthy (lower s) = truthy s.
Proof. now destruct s. Qed.

Lemma lower_lstrip s : lower (lstrip s) = lstrip (lower s).
Proof.
  induction s as [|c s IH]; simpl; [reflexivity|].
  rewrite is_space_lower. now destruct (is_space c).
Qed.

Lemma lower_rstrip s : lower (rstrip s) = rstrip (lower s).
Proof.
  induction s as [|c s IH]; simpl; [reflexivity|].
  rewrite is_space_lower, <- IH, truthy_lower.
  now destruct (is_space c && negb (truthy (rstrip s)))%bool.
Qed.

Lemma lower_strip s : lower (strip s) = strip (lower s).
Proof. unfold strip. now rewrite lower_rstrip, lower_lstrip. Qed.

Lemma truthy_false s : truthy s = false -> s = "".
Proof. now destruct s. Qed.

Lemma rstrip_idem s : rstrip (rstrip s) = rstrip s.
Proof.
  induction s as [|c s IH]; simpl; [reflexivity|].
  destruct (is_space c && negb (truthy (rstrip s)))%bool eqn:E;
    [reflexivity|].
  simpl. now rewrite IH, E.
Qed.

Lemma lstrip_head s : lstrip s = "" \/ head_not_space (lstrip s) = true.
Proof.
  induction s as [|c s IH]; simpl; [now left|].
  destruct (is_space c) eqn:E; [exact IH|].
  right. simpl. now rewrite E.
Qed.

Lemma lstrip_fixed s : head_not_space s = true -> lstrip s = s.
Proof.
  destruct s as [|c s]; simpl; [discriminate|].
  now destruct (is_space c).
Qed.

Lemma rstrip_head s :
  head_not_space s = true -> head_not_space (rstrip s) = true.
Proof.
  destruct s as [|c s]; cbn [head_not_space rstrip]; [discriminate|].
  intros H. apply negb_true_iff in H.
  rewrite H. cbn [andb head_not_space]. now rewrite H.
Qed.

Lemma strip_idem s : strip (strip s) = strip s.
Proof.
  unfold strip. destruct (lstrip_head s) as [H|H].
  - now rewrite H.
  - now rewrite (lstrip_fixed _ (rstrip_head _ H)), rstrip_idem.
Qed.

Lemma contains_lstrip d s :
  head_not_space d = true -> contains d (lstrip s) = contains d s.
Proof.
  intros Hd. induction s as [|c s IH]; [reflexivity|].
  cbn [lstrip]. destruct (is_space c) eqn:E; [|reflexivity].
  rewrite IH. cbn [contains].
  destruct d as [|a d]; [discriminate|]. simpl in Hd |- *.
  destruct (Ascii.eqb_spec a c) as [->|_]; [|reflexivity].
  now rewrite E in Hd.
Qed.

Lemma startswith_rstrip d s :
  rstrip d = d -> startswith d (rstrip s) = startswith d s.
Proof.
  revert s. induction d as [|a d IH]; intros s Hd; [now destruct (rstrip s)|].
  simpl in Hd.
  destruct (is_space a && negb (truthy (rstrip d)))%bool eqn:Ea;
    [discriminate|].
  injection Hd as Hd.
  destruct s as [|c s]; [reflexivity|]. simpl.
  destruct (is_space c && negb (truthy (rstrip s)))%bool eqn:Ec.
  - apply andb_true_iff in Ec. destruct Ec as [Hc Hs].
    apply negb_true_iff, truthy_false in Hs.
    rewrite <- (IH s Hd), Hs.
    destruct (Ascii.eqb_spec a c) as [->|_]; [|reflexivity].
    rewrite Hc, Hd in Ea. simpl in Ea. apply negb_false_iff in Ea.
    destruct d; [discriminate | reflexivity].
  - simpl. now rewrite (IH s Hd).
Qed.

Lemma contains_rstrip d s :
  rstrip d = d -> truthy d = true -> contains d (rstrip s) = contains d s.
Proof.
  intros Hd Ht. induction s as [|c s IH]; [reflexivity|].
  cbn [contains]. rewrite <- IH, <- (startswith_rstrip d (String c s) Hd).
  simpl.
  destruct (is_space c && negb (truthy (rstrip s)))%bool eqn:Ec.
  - apply andb_true_iff in Ec. destruct Ec as [_ Hs].
    apply negb_true_iff, truthy_false in Hs. rewrite Hs.
    destruct d; [discriminate | reflexivity].
  - reflexivity.
Qed.

Lemma contains_strip d s :
  head_not_space d = true -> rstrip d = d ->
  contains d (strip s) = contains d s.
Proof.
  intros Hh Hr. unfold strip.
  rewrite contains_rstrip, contains_lstrip; trivial.
  now destruct d.
Qed.

(** ** URL classifier *)

(** C9: [is_supported_video_url] answers [true] exactly when some domain of
    the allow-list occurs as a substring of the lowercased URL; it is a
    total function of the URL alone, and URLs that agree once lowercased
    (such as a URL and its lowercased form) get the same answer. *)
Theorem is_supported_video_url_spec (u : string) :
  (is_supported_video_url u = true <->
   exists domain, In domain supported_domains /\ occurs_in domain (lower u))
  /\ is_supported_video_url (lower u) = is_supported_video_url u
  /\ supported_domains =
       ["youtube.com"; "youtu.be"; "twitter.com"; "x.com"; "vimeo.com";
        "tiktok.com"; "instagram.com"; "facebook.com"; "fb.com";
        "linkedin.com"; "reddit.com"].
Proof.
  split; [|split].
  - unfold is_supported_video_url. rewrite existsb_exists.
    split; intros [d [Hin Hd]]; exists d; (split; [exact Hin|]);
      now apply contains_iff.
  - unfold is_supported_video_url. now rewrite lower_idem.
  - reflexivity.
Qed.

(** The classifier does not see the whitespace [strip] removes: no domain
    of the allow-list starts or ends with such a character. *)
Lemma is_supported_video_url_strip (u : string) :
  is_supported_video_url (strip u) = is_supported_video_url u.
Proof.
  unfold is_supported_video_url, supported_domains. cbn [existsb].
  rewrite lower_strip.
  repeat (rewrite contains_strip by reflexivity). reflexivity.
Qed.

Lemma length_append (a b : string) :
  String.length (a ++ b) = (String.length a + String.length b)%nat.
Proof.
  induction a as [|c a IH]; simpl; [reflexivity | now rewrite IH].
Qed.

Lemma length_take n s :
  (n <= String.length s)%nat -> String.length (take n s) = n.
Proof.
  revert s. induction n as [|n IH]; intros [|c s] H; simpl in *;
    try reflexivity; try lia.
  rewrite IH; [reflexivity | lia].
Qed.

Lemma take_prefix n s : exists rest, s = take n s ++ rest.
Proof.
  revert s. induction n as [|n IH]; intros s.
  - now exists s.
  - destruct s as [|c s]; [now exists ""|].
    destruct (IH s) as [rest H]. exists rest. simpl. now rewrite <- H.
Qed.

Lemma len_append a b : len (a ++ b) = len a + len b.
Proof. unfold len. rewrite length_append. lia. Qed.

Lemma len_slice_to s n : 0 <= n <= len s -> len (slice_to s n) = n.
Proof.
  unfold len, slice_to. intros H. rewrite length_take; lia.
Qed.

Lemma length_replicate n c : String.length (replicate n c) = n.
Proof.
  induction n as [|n IH]; simpl; [reflexivity | now rewrite IH].
Qed.

Lemma take_replicate n m c : take n (replicate (n + m) c) = replicate n c.
Proof.
  induction n as [|n IH]; simpl; [reflexivity | now rewrite IH].
Qed.

Lemma truthy_len s : truthy s = true <-> 0 < len s.
Proof.
  unfold len. destruct s; simpl; split; intros H; try reflexivity;
    try discriminate; lia.
Qed.

(** ** Events *)

Lemma sheet_writes_app (a b : list event) :
  sheet_writes (a ++ b) = (sheet_writes a ++ sheet_writes b)%list.
Proof.
  induction a as [|[] a IH]; simpl; rewrite ?IH; reflexivity.
Qed.

Lemma sent_contents_app (a b : list event) :
  sent_contents (a ++ b) = (sent_contents a ++ sent_contents b)%list.
Proof.
  induction a as [|[] a IH]; simpl; rewrite ?IH; reflexivity.
Qed.

Lemma log_entries_app (a b : list event) :
  log_entries (a ++ b) = (log_entries a ++ log_entries b)%list.
Proof.
  induction a as [|[] a IH]; simpl; rewrite ?IH; reflexivity.
Qed.

(** ** Status writer *)

Section StatusWriter.

Context {O : Type} (C : Collaborators O).

(** What one call does when there is a result to write: both cell writes,
    each followed by the log entry of its own outcome. *)
Lemma update_sheet_status_with_result row status result o rB o1 rC o2 :
  truthy result = true ->
  sheet_update_acell C ("B" ++ str_of_int row) (cell_text result) o = (rB, o1) ->
  sheet_update_acell C ("C" ++ str_of_int row) status o1 = (rC, o2) ->
  update_sheet_status C row status result o =
    (Ok tt, o2,
     [ UpdateAcell ("B" ++ str_of_int row) (cell_text result);
       match rB with
       | Ok _ => Log INFO ("Updated result in B" ++ str_of_int row)
       | Raise e => Log ERROR ("Failed to update result in B" ++ str_of_int row
                               ++ ": " ++ str_of_exn e)
       end;
       UpdateAcell ("C" ++ str_of_int row) status;
       match rC with
       | Ok _ => Log INFO ("Updated status in C" ++ str_of_int row ++ ": " ++ status)
       | Raise e => Log ERROR ("Failed to update status in C" ++ str_of_int row
                               ++ ": " ++ str_of_exn e)
       end ]).
Proof.
  intros Ht HB HC.
  unfold update_sheet_status, try_except, bind, call, logging.
  rewrite Ht, HB. destruct rB as [[]|eB]; cbv beta iota; rewrite HC;
    destruct rC as [[]|eC]; reflexivity.
Qed.

(** What one call does when there is no result: the status write alone. *)
Lemma update_sheet_status_without_result row status result o rC o2 :
  truthy result = false ->
  sheet_update_acell C ("C" ++ str_of_int row) status o = (rC, o2) ->
  update_sheet_status C row status result o =
    (Ok tt, o2,
     [ UpdateAcell ("C" ++ str_of_int row) status;
       match rC with
       | Ok _ => Log INFO ("Updated status in C" ++ str_of_int row ++ ": " ++ status)
       | Raise e => Log ERROR ("Failed to update status in C" ++ str_of_int row
                               ++ ": " ++ str_of_exn e)
       end ]).
Proof.
  intros Ht HC.
  unfold update_sheet_status, try_except, bind, call, logging, ret.
  rewrite Ht. cbv beta iota. rewrite HC. destruct rC as [[]|eC]; reflexivity.
Qed.

(** The status writer returns normally whatever the worksheet does, and
    the cell writes it attempts are the ones of its contract; it never
    talks to the language model. *)
Lemma update_sheet_status_total row status result o :
  exists o' evs,
    update_sheet_status C row status result o = (Ok tt, o', evs)
    /\ sheet_writes evs = writer_writes row status result
    /\ sent_contents evs = [].
Proof.
  unfold writer_writes. destruct (truthy result) eqn:Ht.
  - destruct (sheet_update_acell C ("B" ++ str_of_int row) (cell_text result) o)
      as [rB o1] eqn:HB.
    destruct (sheet_update_acell C ("C" ++ str_of_int row) status o1)
      as [rC o2] eqn:HC.
    rewrite (update_sheet_status_with_result _ _ _ _ _ _ _ _ Ht HB HC).
    eexists _, _. split; [reflexivity|].
    destruct rB, rC; split; reflexivity.
  - destruct (sheet_update_acell C ("C" ++ str_of_int row) status o)
      as [rC o2] eqn:HC.
    rewrite (update_sheet_status_without_result _ _ _ _ _ _ Ht HC).
    eexists _, _. split; [reflexivity|].
    destruct rC; split; reflexivity.
Qed.

(** A result longer than [max_cell_chars] goes to column B as its first
    [max_cell_chars] characters followed by the marker, which makes
    [max_cell_chars + 15] characters. *)
Lemma cell_text_long result :
  len result > max_cell_chars ->
  (exists head rest,
      result = head ++ rest /\ len head = max_cell_chars
      /\ cell_text result = head ++ "... [TRUNCATED]")
  /\ len (cell_text result) = max_cell_chars + 15.
Proof.
  intros H. unfold cell_text.
  destruct (Z.gtb_spec (len result) max_cell_chars) as [_|Hle]; [|lia].
  assert (Hl : len (slice_to result max_cell_chars) = max_cell_chars)
    by (apply len_slice_to; unfold max_cell_chars in *; lia).
  split.
  - destruct (take_prefix (Z.to_nat max_cell_chars) result) as [rest Hr].
    exists (slice_to result max_cell_chars), rest. now repeat split.
  - rewrite len_append, Hl. reflexivity.
Qed.

Lemma cell_text_short result :
  len result <= max_cell_chars -> cell_text result = result.
Proof.
  intros H. unfold cell_text.
  destruct (Z.gtb_spec (len result) max_cell_chars) as [Hgt|_];
    [lia | reflexivity].
Qed.

(** C6: whatever the worksheet does, [update_sheet_status] returns
    normally.  With a non-empty result it attempts the write to column B
    and then the write to column C, also when the first one raised; and a
    write that raised leaves an ERROR entry in the log. *)
Theorem update_sheet_status_writes_independent
  (row : Z) (status result : string) (o : O) :
  exists o' evs,
    update_sheet_status C row status result o = (Ok tt, o', evs)
    /\ (truthy result = true ->
        sheet_writes evs =
          [("B" ++ str_of_int row, cell_text result);
           ("C" ++ str_of_int row, status)]
        /\ forall e o1,
            sheet_update_acell C ("B" ++ str_of_int row) (cell_text result) o
              = (Raise e, o1) ->
            In (ERROR, "Failed to update result in B" ++ str_of_int row
                       ++ ": " ++ str_of_exn e) (log_entries evs)
            /\ o' = snd (sheet_update_acell C ("C" ++ str_of_int row) status o1))
    /\ (forall e o2,
          sheet_update_acell C ("C" ++ str_of_int row) status
            (if truthy result
             then snd (sheet_update_acell C ("B" ++ str_of_int row)
                         (cell_text result) o)
             else o) = (Raise e, o2) ->
          In (ERROR, "Failed to update status in C" ++ str_of_int row
                     ++ ": " ++ str_of_exn e) (log_entries evs)).
Proof.
  destruct (truthy result) eqn:Ht.
  - destruct (sheet_update_acell C ("B" ++ str_of_int row) (cell_text result) o)
      as [rB o1] eqn:HB.
    destruct (sheet_update_acell C ("C" ++ str_of_int row) status o1)
      as [rC o2] eqn:HC.
    rewrite (update_sheet_status_with_result _ _ _ _ _ _ _ _ Ht HB HC).
    eexists _, _. split; [reflexivity|]. split.
    + intros _. split; [destruct rB, rC; reflexivity|].
      intros e o1' Heq. injection Heq as -> ->. rewrite HC. split.
      * destruct rC; simpl; auto.
      * reflexivity.
    + cbn [snd]. rewrite HC. intros e o2' Heq. injection Heq as -> ->.
      destruct rB; simpl; auto.
  - destruct (sheet_update_acell C ("C" ++ str_of_int row) status o)
      as [rC o2] eqn:HC.
    rewrite (update_sheet_status_without_result _ _ _ _ _ _ Ht HC).
    eexists _, _. split; [reflexivity|]. split; [discriminate|].
    intros e o2' Heq. injection Heq as -> ->. simpl. auto.
Qed.

End StatusWriter.

(** C6, on a worksheet that refuses every write to column B: the call
    returns normally, the status write is attempted all the same, and the
    refused write is in the log. *)
Lemma update_sheet_status_writes_independent_witness :
  truthy "a summary" = true
  /\ exists o' evs,
      update_sheet_status
        (scripted (Ok []) write_B_fails transcript_hello generate_summary)
        1 "COMPLETED" "a summary" tt = (Ok tt, o', evs)
      /\ sheet_writes evs = [("B1", "a summary"); ("C1", "COMPLETED")]
      /\ In (ERROR, "Failed to update result in B1: APIError: quota exceeded")
            (log_entries evs).
Proof.
  split; [reflexivity|].
  destruct (update_sheet_status_writes_independent
              (scripted (Ok []) write_B_fails transcript_hello generate_summary)
              1 "COMPLETED" "a summary" tt)
    as (o' & evs & Hrun & Hres & _).
  exists o', evs. split; [exact Hrun|].
  destruct (Hres eq_refl) as [Hw Hlog]. split; [exact Hw|].
  exact (proj1 (Hlog (Exception "APIError: quota exceeded") tt eq_refl)).
Defined.

(** C3: for a result of 60,000 characters, whatever the worksheet, the text
    [update_sheet_status] sends to column B is the first 50,000 characters
    followed by the marker: 50,015 characters, more than [max_cell_chars]. *)
Theorem update_sheet_status_result_exceeds_max_cell_chars
  {O : Type} (C : Collaborators O) (row : Z) (status : string) (o : O) :
  exists o' evs value,
    update_sheet_status C row status (replicate (Z.to_nat 60000) "a") o
      = (Ok tt, o', evs)
    /\ sheet_writes evs =
         [("B" ++ str_of_int row, value); ("C" ++ str_of_int row, status)]
    /\ value = replicate (Z.to_nat 50000) "a" ++ "... [TRUNCATED]"
    /\ len value = 50015
    /\ len value > max_cell_chars.
Proof.
  destruct (update_sheet_status_total C row status
              (replicate (Z.to_nat 60000) "a") o) as (o' & evs & Hrun & Hw & _).
  exists o', evs, (cell_text (replicate (Z.to_nat 60000) "a")).
  split; [exact Hrun|].
  assert (Hlen : len (replicate (Z.to_nat 60000) "a") = 60000)
    by (unfold len; rewrite length_replicate; apply Z2Nat.id; lia).
  assert (Hgt : len (replicate (Z.to_nat 60000) "a") > max_cell_chars)
    by (rewrite Hlen; reflexivity).
  split; [|split; [|split]].
  - rewrite Hw. unfold writer_writes.
    replace (truthy (replicate (Z.to_nat 60000) "a")) with true
      by (symmetry; apply truthy_len; lia).
    reflexivity.
  - unfold cell_text.
    destruct (Z.gtb_spec (len (replicate (Z.to_nat 60000) "a")) max_cell_chars)
      as [_|Hle]; [|lia].
    unfold slice_to, truncation_marker, max_cell_chars.
    replace (Z.to_nat 60000)
      with (Z.to_nat 50000 + Z.to_nat 10000)%nat by lia.
    now rewrite take_replicate.
  - apply (cell_text_long _ Hgt).
  - rewrite (proj2 (cell_text_long _ Hgt)). reflexivity.
Qed.

(** ** Summarizer *)

Section Summarizer.

Context {O : Type} (C : Collaborators O).

(** [analyze_with_gemini] returns normally whatever the language model
    does, makes exactly one request, with [sent_text transcript] as its
    contents, and writes no cell. *)
Lemma analyze_with_gemini_total transcript system_prompt o :
  exists a o' evs,
    analyze_with_gemini C transcript system_prompt o = (Ok a, o', evs)
    /\ sheet_writes evs = []
    /\ sent_contents evs = [sent_text transcript].
Proof.
  unfold analyze_with_gemini, sent_text, try_except, bind, call, logging,
    ret, raise.
  destruct (len transcript >? max_chars); cbv beta iota;
    match goal with
    | |- context [genai_generate_content C ?c ?p ?o] =>
        destruct (genai_generate_content C c p o) as [[[[t|]]|e] o1]
    end; cbv beta iota; eexists _, _, _; (split; [reflexivity|]);
    split; reflexivity.
Qed.

(** When the language model raises, or answers without a parsed text, the
    summarizer yields [None]. *)
Lemma analyze_with_gemini_failure transcript system_prompt o r o1 :
  genai_generate_content C (sent_text transcript) system_prompt o = (r, o1) ->
  match r with
  | Ok {| parsed := Some _ |} => False
  | _ => True
  end ->
  exists evs,
    analyze_with_gemini C transcript system_prompt o = (Ok None, o1, evs).
Proof.
  intros Hg Hr.
  unfold analyze_with_gemini, try_except, bind, call, logging, ret, raise.
  unfold sent_text in Hg.
  destruct (len transcript >? max_chars); cbv beta iota; rewrite Hg;
    destruct r as [[[t|]]|e]; try contradiction; cbv beta iota;
    eexists; reflexivity.
Qed.

(** The contents sent for a transcript longer than [max_chars]. *)
Lemma sent_text_long transcript :
  len transcript > max_chars ->
  exists head rest,
    transcript = head ++ rest /\ len head = max_chars
    /\ sent_text transcript = head ++ "... [TRUNCATED]".
Proof.
  intros H. unfold sent_text.
  destruct (Z.gtb_spec (len transcript) max_chars) as [_|Hle]; [|lia].
  destruct (take_prefix (Z.to_nat max_chars) transcript) as [rest Hr].
  exists (slice_to transcript max_chars), rest. repeat split; trivial.
  apply len_slice_to. unfold max_chars in *. lia.
Qed.

Lemma sent_text_short transcript :
  len transcript <= max_chars -> sent_text transcript = transcript.
Proof.
  intros H. unfold sent_text.
  destruct (Z.gtb_spec (len transcript) max_chars) as [Hgt|_];
    [lia | reflexivity].
Qed.

(** C8: the request [analyze_with_gemini] makes carries, for a transcript
    of more than 100,000 characters, its first 100,000 characters followed
    by the marker, and otherwise the transcript itself; the limit is
    [max_chars], not the [max_cell_chars] of the status writer. *)
Theorem analyze_with_gemini_truncates_input
  (transcript system_prompt : string) (o : O) :
  exists a o' evs contents,
    analyze_with_gemini C transcript system_prompt o = (Ok a, o', evs)
    /\ sent_contents evs = [contents]
    /\ (len transcript > 100000 ->
        exists head rest,
          transcript = head ++ rest /\ len head = 100000
          /\ contents = head ++ "... [TRUNCATED]")
    /\ (len transcript <= 100000 -> contents = transcript)
    /\ max_chars = 100000 /\ max_cell_chars = 50000.
Proof.
  destruct (analyze_with_gemini_total transcript system_prompt o)
    as (a & o' & evs & Hrun & _ & Hs).
  exists a, o', evs, (sent_text transcript).
  repeat split; trivial.
  - apply sent_text_long.
  - apply sent_text_short.
Qed.

(** C10: at exactly the limit nothing is cut: a transcript of exactly
    100,000 characters is sent as it is, and a result of exactly 50,000
    characters goes to column B as it is. *)
Theorem truncation_only_on_strict_excess
  (transcript system_prompt result status : string) (row : Z) (o : O) :
  len transcript = 100000 ->
  len result = 50000 ->
  (exists a o' evs,
      analyze_with_gemini C transcript system_prompt o = (Ok a, o', evs)
      /\ sent_contents evs = [transcript])
  /\ (exists o' evs,
         update_sheet_status C row status result o = (Ok tt, o', evs)
         /\ sheet_writes evs =
              [("B" ++ str_of_int row, result); ("C" ++ str_of_int row, status)]).
Proof.
  intros Ht Hr. split.
  - destruct (analyze_with_gemini_total transcript system_prompt o)
      as (a & o' & evs & Hrun & _ & Hs).
    exists a, o', evs. split; [exact Hrun|].
    rewrite Hs, sent_text_short; [reflexivity | unfold max_chars; lia].
  - destruct (update_sheet_status_total C row status result o)
      as (o' & evs & Hrun & Hw & _).
    exists o', evs. split; [exact Hrun|].
    rewrite Hw. unfold writer_writes.
    replace (truthy result) with true
      by (symmetry; apply truthy_len; lia).
    rewrite cell_text_short; [reflexivity | unfold max_cell_chars; lia].
Qed.

End Summarizer.

(** C8, on a transcript of 150,000 characters. *)
Lemma analyze_with_gemini_truncates_input_witness :
  len (replicate (Z.to_nat 150000) "a") > 100000
  /\ exists a o' evs,
      analyze_with_gemini
        (scripted (Ok []) write_ok transcript_hello generate_summary)
        (replicate (Z.to_nat 150000) "a") "PROMPT" tt = (Ok a, o', evs)
      /\ exists head rest,
          replicate (Z.to_nat 150000) "a" = head ++ rest
          /\ len head = 100000
          /\ sent_contents evs = [head ++ "... [TRUNCATED]"].
Proof.
  assert (Hlen : len (replicate (Z.to_nat 150000) "a") > 100000)
    by (vm_compute; reflexivity).
  split; [exact Hlen|].
  destruct (analyze_with_gemini_truncates_input
              (scripted (Ok []) write_ok transcript_hello generate_summary)
              (replicate (Z.to_nat 150000) "a") "PROMPT" tt)
    as (a & o' & evs & contents & Hrun & Hs & Hlong & _).
  exists a, o', evs. split; [exact Hrun|].
  destruct (Hlong Hlen) as (head & rest & H1 & H2 & H3).
  exists head, rest. rewrite Hs, H3. repeat split; assumption.
Defined.

(** C10, on strings of exactly 100,000 and exactly 50,000 characters. *)
Lemma truncation_only_on_strict_excess_witness :
  (exists a o' evs,
      analyze_with_gemini
        (scripted (Ok []) write_ok transcript_hello generate_summary)
        (replicate (Z.to_nat 100000) "t") "PROMPT" tt = (Ok a, o', evs)
      /\ sent_contents evs = [replicate (Z.to_nat 100000) "t"])
  /\ (exists o' evs,
         update_sheet_status
           (scripted (Ok []) write_ok transcript_hello generate_summary)
           7 "COMPLETED" (replicate (Z.to_nat 50000) "r") tt = (Ok tt, o', evs)
         /\ sheet_writes evs =
              [("B" ++ str_of_int 7, replicate (Z.to_nat 50000) "r");
               ("C" ++ str_of_int 7, "COMPLETED")]).
Proof.
  apply (truncation_only_on_strict_excess
           (scripted (Ok []) write_ok transcript_hello generate_summary)
           (replicate (Z.to_nat 100000) "t") "PROMPT"
           (replicate (Z.to_nat 50000) "r") "COMPLETED" 7 tt);
    vm_compute; reflexivity.
Defined.

(** ** Scanner *)

(** One turn of the scanner's loop, in the words of its contract: the row
    is kept exactly when it is [eligible], and it is kept under its own
    index with its stripped URL. *)
Lemma scan_rows_cons r rest k :
  scan_rows (r :: rest) k =
    if eligible r
    then {| url := strip (url_cell r); row := k |} :: scan_rows rest (k + 1)
    else scan_rows rest (k + 1).
Proof.
  cbn [scan_rows]. unfold eligible, url_cell, status_cell.
  destruct r as [|u [|b [|st more]]]; try reflexivity.
  - cbn [List.length nth]. change (strip "") with "".
    change (Z.of_nat 1 =? 0) with false. change (Z.of_nat 1 >? 0) with true.
    change (Z.of_nat 1 >? 2) with false. cbv beta iota zeta.
    change (existsb (String.eqb "") ["PROCESSING"; "COMPLETED"; "ERROR"])
      with false.
    cbn [truthy negb orb]. rewrite andb_true_r.
    now destruct (truthy (strip u)), (is_supported_video_url (strip u)).
  - cbn [List.length nth]. change (strip "") with "".
    change (Z.of_nat 2 =? 0) with false. change (Z.of_nat 2 >? 0) with true.
    change (Z.of_nat 2 >? 2) with false. cbv beta iota zeta.
    change (existsb (String.eqb "") ["PROCESSING"; "COMPLETED"; "ERROR"])
      with false.
    cbn [truthy negb orb]. rewrite andb_true_r.
    now destruct (truthy (strip u)), (is_supported_video_url (strip u)).
  - cbn [nth].
    assert (H0 : (Z.of_nat (List.length (u :: b :: st :: more)) =? 0) = false)
      by (apply Z.eqb_neq; cbn [List.length]; lia).
    assert (H1 : (Z.of_nat (List.length (u :: b :: st :: more)) >? 0) = true)
      by (apply Z.gtb_lt; cbn [List.length]; lia).
    assert (H2 : (Z.of_nat (List.length (u :: b :: st :: more)) >? 2) = true)
      by (apply Z.gtb_lt; cbn [List.length]; lia).
    rewrite H0, H1, H2. cbv beta iota zeta. rewrite strip_idem.
    destruct (truthy (strip u)), (is_supported_video_url (strip u));
      cbn [negb orb andb]; try reflexivity.
    destruct (truthy (strip st)) eqn:Hs.
    + now rewrite orb_true_r.
    + apply truthy_false in Hs. rewrite Hs. reflexivity.
Qed.

(** The entries the scanner emits are those of the eligible rows, each
    under the 1-based position of its row (counted from [k]). *)
Lemma scan_rows_In all_values k e :
  In e (scan_rows all_values k) <->
  exists i r,
    nth_error all_values i = Some r /\ eligible r = true
    /\ e = {| url := strip (url_cell r); row := k + Z.of_nat i |}.
Proof.
  revert k. induction all_values as [|r rest IH]; intros k.
  - split; [intros [] | intros (i & r & H & _)]. now destruct i.
  - rewrite scan_rows_cons. split.
    + intros H. destruct (eligible r) eqn:Hr.
      * destruct H as [<- | H].
        -- exists 0%nat, r. rewrite Z.add_0_r. auto.
        -- apply IH in H. destruct H as (i & r' & Hn & He & ->).
           exists (S i), r'. repeat split; trivial.
           f_equal. lia.
      * apply IH in H. destruct H as (i & r' & Hn & He & ->).
        exists (S i), r'. repeat split; trivial.
        f_equal. lia.
    + intros (i & r' & Hn & He & ->). destruct i as [|i].
      * injection Hn as ->. rewrite He. left. f_equal. lia.
      * assert (Hin : In {| url := strip (url_cell r');
                            row := k + Z.of_nat (S i) |}
                        (scan_rows rest (k + 1))).
        { apply IH. exists i, r'. repeat split; trivial. f_equal. lia. }
        destruct (eligible r); [now right | exact Hin].
Qed.

Lemma scan_rows_lower_bound all_values k e :
  In e (scan_rows all_values k) -> k <= row e.
Proof.
  intros H. apply scan_rows_In in H. destruct H as (i & r & _ & _ & ->).
  cbn [row]. lia.
Qed.

(** The row indices of the emitted entries increase strictly: the entries
    come in the order of their rows, and no row is emitted twice. *)
Lemma scan_rows_sorted all_values k :
  StronglySorted Z.lt (map row (scan_rows all_values k)).
Proof.
  revert k. induction all_values as [|r rest IH]; intros k.
  - constructor.
  - rewrite scan_rows_cons. destruct (eligible r); [|apply IH].
    cbn [map row]. constructor; [apply IH|].
    apply Forall_forall. intros z Hz. apply in_map_iff in Hz.
    destruct Hz as (e & <- & He). apply scan_rows_lower_bound in He. lia.
Qed.

Section Scanner.

Context {O : Type} (C : Collaborators O).

(** When the worksheet answers, the scanner returns [scan_rows] of the
    rows it got. *)
Lemma get_new_urls_read_ok o all_values o1 :
  sheet_get_all_values C o = (Ok all_values, o1) ->
  get_new_urls C o =
    (Ok (scan_rows all_values 1), o1,
     [GetAllValues;
      Log INFO ("Found "
                ++ str_of_int (Z.of_nat (List.length (scan_rows all_values 1)))
                ++ " new URLs to process")]).
Proof.
  intros H. unfold get_new_urls, try_except, bind, call, logging, ret.
  rewrite H. reflexivity.
Qed.

(** When the read raises, the scanner logs it and returns the empty list. *)
Lemma get_new_urls_read_fails o e o1 :
  sheet_get_all_values C o = (Raise e, o1) ->
  get_new_urls C o =
    (Ok [], o1,
     [GetAllValues;
      Log ERROR ("Failed to get URLs from sheet: " ++ str_of_exn e)]).
Proof.
  intros H. unfold get_new_urls, try_except, bind, call, logging, ret.
  rewrite H. reflexivity.
Qed.

(** C4 (amended): a row whose status cell is not empty once the
    surrounding whitespace is stripped is never in the worklist, whatever
    its URL. *)
Theorem get_new_urls_excludes_rows_with_status
  (o o1 : O) (all_values : list (list string)) (i : nat) (r : list string) :
  sheet_get_all_values C o = (Ok all_values, o1) ->
  nth_error all_values i = Some r ->
  truthy (strip (status_cell r)) = true ->
  exists worklist evs,
    get_new_urls C o = (Ok worklist, o1, evs)
    /\ forall e, In e worklist -> row e <> Z.of_nat i + 1.
Proof.
  intros Hread Hn Hs. rewrite (get_new_urls_read_ok _ _ _ Hread).
  eexists _, _. split; [reflexivity|].
  intros e He Hrow. apply scan_rows_In in He.
  destruct He as (j & r' & Hn' & He & ->). cbn [row] in Hrow.
  assert (j = i) by lia. subst j. rewrite Hn in Hn'. injection Hn' as <-.
  unfold eligible in He. rewrite Hs in He.
  rewrite andb_false_r in He. discriminate.
Qed.

(** C7: a row with an empty status cell and a non-empty URL that the
    classifier accepts is in the worklist, under its 1-based position and
    with its URL (stripped of surrounding whitespace); and the row indices
    of the worklist increase strictly, so the entries keep the order of the
    rows. *)
Theorem get_new_urls_includes_eligible_rows
  (o o1 : O) (all_values : list (list string)) :
  sheet_get_all_values C o = (Ok all_values, o1) ->
  exists worklist evs,
    get_new_urls C o = (Ok worklist, o1, evs)
    /\ (forall i r,
          nth_error all_values i = Some r ->
          status_cell r = "" ->
          url_cell r <> "" ->
          is_supported_video_url (url_cell r) = true ->
          In {| url := strip (url_cell r); row := Z.of_nat i + 1 |} worklist)
    /\ StronglySorted Z.lt (map row worklist).
Proof.
  intros Hread. rewrite (get_new_urls_read_ok _ _ _ Hread).
  eexists _, _. split; [reflexivity|]. split; [|apply scan_rows_sorted].
  intros i r Hn Hs _ Hu. apply scan_rows_In. exists i, r.
  repeat split; trivial; [|f_equal; lia].
  unfold eligible. rewrite Hs, is_supported_video_url_strip, Hu.
  change (strip "") with "". cbn [truthy negb]. rewrite !andb_true_r.
  destruct (truthy (strip (url_cell r))) eqn:Ht; [reflexivity|].
  apply truthy_false in Ht.
  rewrite <- (is_supported_video_url_strip (url_cell r)), Ht in Hu.
  discriminate.
Qed.

End Scanner.

(** C4 as first stated fails on a status cell that holds only whitespace:
    the cell is not empty, yet the row is in the worklist. *)
Lemma get_new_urls_whitespace_status_counterexample :
  status_cell ["https://youtu.be/abc"; ""; " "] <> ""
  /\ get_new_urls
       (scripted (Ok [["https://youtu.be/abc"; ""; " "]])
                 write_ok transcript_hello generate_summary) tt
     = (Ok [{| url := "https://youtu.be/abc"; row := 1 |}], tt,
        [GetAllValues; Log INFO "Found 1 new URLs to process"]).
Proof.
  split; [discriminate | reflexivity].
Qed.

(** C4 (amended), on a row marked [done] by hand. *)
Lemma get_new_urls_excludes_rows_with_status_witness :
  exists worklist evs,
    get_new_urls
      (scripted (Ok [["https://youtu.be/abc"; ""; "done"]])
                write_ok transcript_hello generate_summary) tt
    = (Ok worklist, tt, evs)
    /\ forall e, In e worklist -> row e <> Z.of_nat 0 + 1.
Proof.
  apply (get_new_urls_excludes_rows_with_status
           (scripted (Ok [["https://youtu.be/abc"; ""; "done"]])
                     write_ok transcript_hello generate_summary)
           tt tt [["https://youtu.be/abc"; ""; "done"]] 0
           ["https://youtu.be/abc"; ""; "done"]);
    reflexivity.
Defined.

(** C7, on the one-row store of the scenario. *)
Lemma get_new_urls_includes_eligible_rows_witness :
  exists worklist evs,
    get_new_urls
      (scripted (Ok [["https://youtu.be/abc"; ""; ""]])
                write_ok transcript_hello generate_summary) tt
    = (Ok worklist, tt, evs)
    /\ In {| url := "https://youtu.be/abc"; row := 1 |} worklist.
Proof.
  destruct (get_new_urls_includes_eligible_rows
              (scripted (Ok [["https://youtu.be/abc"; ""; ""]])
                        write_ok transcript_hello generate_summary)
              tt tt [["https://youtu.be/abc"; ""; ""]] eq_refl)
    as (worklist & evs & Hrun & Hin & _).
  exists worklist, evs. split; [exact Hrun|].
  apply (Hin 0%nat ["https://youtu.be/abc"; ""; ""]);
    [reflexivity | reflexivity | discriminate | reflexivity].
Defined.

(** The scenario of the scanner's contract: the one-row store yields
    exactly one entry, for row 1. *)
Example get_new_urls_single_row :
  get_new_urls
    (scripted (Ok [["https://youtu.be/abc"; ""; ""]])
              write_ok transcript_hello generate_summary) tt
  = (Ok [{| url := "https://youtu.be/abc"; row := 1 |}], tt,
     [GetAllValues; Log INFO "Found 1 new URLs to process"]).
Proof. reflexivity. Qed.

(** ** Transcript fetcher *)

Section Fetcher.

Context {O : Type} (C : Collaborators O).

(** [get_transcript] returns normally whatever the transcription service
    does; it writes no cell and sends nothing to the language model. *)
Lemma get_transcript_total url o :
  exists t o' evs,
    get_transcript C url o = (Ok t, o', evs)
    /\ sheet_writes evs = []
    /\ sent_contents evs = [].
Proof.
  unfold get_transcript, try_except, bind, call, logging, ret, raise, len_of.
  cbv beta iota.
  destruct (supadata_transcript C url o) as [[resp|e] o1]; cbv beta iota.
  - destruct resp as [[c|] lang | [c|] lang | s | attrs]; cbv beta iota;
      try (eexists _, _, _; split; [reflexivity | split; reflexivity]).
    destruct (first_attr ["text"; "transcript"; "data"; "result"] attrs)
      as [[n v]|]; cbv beta iota;
      eexists _, _, _; (split; [reflexivity | split; reflexivity]).
  - destruct e; cbv beta iota;
      eexists _, _, _; (split; [reflexivity | split; reflexivity]).
Qed.

(** An exception of the transcription service, of either kind, reaches the
    caller as [None]. *)
Lemma get_transcript_collaborator_raises url o e o1 :
  supadata_transcript C url o = (Raise e, o1) ->
  exists evs, get_transcript C url o = (Ok None, o1, evs).
Proof.
  intros H.
  unfold get_transcript, try_except, bind, call, logging, ret, raise.
  cbv beta iota. rewrite H. destruct e; cbv beta iota; eexists; reflexivity.
Qed.

End Fetcher.

(** ** Record processor *)

Section Processor.

Context {O : Type} (C : Collaborators O).
Variable prompt : string.

(** Runs the next call of the status writer in the goal. *)
Ltac run_writer :=
  match goal with
  | |- context [update_sheet_status C ?r ?s ?x ?o] =>
      let o' := fresh "o" in
      let evs := fresh "evs" in
      let Hrun := fresh "Hrun" in
      let Hw := fresh "Hw" in
      let Hs := fresh "Hs" in
      destruct (update_sheet_status_total C r s x o)
        as (o' & evs & Hrun & Hw & Hs);
      rewrite Hrun; cbv beta iota
  end.

(** One attempt, followed from the outcomes of its steps: the fetcher
    yields no usable text, or the summarizer yields none, or both yield
    one. *)
Lemma process_url_run e o o1 ev1 t o2 ev2 :
  update_sheet_status C (row e) "PROCESSING" "" o = (Ok tt, o1, ev1) ->
  get_transcript C (url e) o1 = (Ok t, o2, ev2) ->
  (falsy t = true ->
   exists o' evs,
     process_url C prompt e o = (Ok false, o', evs)
     /\ sheet_writes evs =
          (sheet_writes ev1
           ++ writer_writes (row e) "ERROR"
                "Error: Could not retrieve transcript using Supadata")%list)
  /\ (forall tx, t = Some tx -> truthy tx = true ->
      forall a o3 ev3,
        analyze_with_gemini C tx prompt o2 = (Ok a, o3, ev3) ->
        (falsy a = true ->
         exists o' evs,
           process_url C prompt e o = (Ok false, o', evs)
           /\ sheet_writes evs =
                (sheet_writes ev1
                 ++ writer_writes (row e) "ERROR"
                      "Error: Gemini analysis failed")%list)
        /\ (forall summary, a = Some summary -> truthy summary = true ->
            exists o' evs,
              process_url C prompt e o = (Ok true, o', evs)
              /\ sheet_writes evs =
                   (sheet_writes ev1
                    ++ writer_writes (row e) "COMPLETED" summary)%list)).
Proof.
  intros H1 H2.
  assert (Hw2 : sheet_writes ev2 = []).
  { destruct (get_transcript_total C (url e) o1) as (? & ? & ? & Heq & Hw & _).
    rewrite H2 in Heq. now injection Heq as <- <- <-. }
  split; [|intros tx -> Htx a o3 ev3 H3; split].
  - intros Ht.
    unfold process_url, bind, try_except, logging, require, ret, raise.
    cbv beta iota zeta. rewrite H1. cbv beta iota. rewrite H2. cbv beta iota.
    destruct t as [tx|]; [destruct (truthy tx) eqn:Htx;
      [simpl in Ht; rewrite Htx in Ht; discriminate|]|];
      cbv beta iota; run_writer; eexists _, _; (split; [reflexivity|]);
      rewrite ?sheet_writes_app, ?Hw2, ?Hw; reflexivity.
  - intros Ha.
    assert (Hw3 : sheet_writes ev3 = []).
    { destruct (analyze_with_gemini_total C tx prompt o2)
        as (? & ? & ? & Heq & Hw & _).
      rewrite H3 in Heq. now injection Heq as <- <- <-. }
    unfold process_url, bind, try_except, logging, require, ret, raise.
    cbv beta iota zeta. rewrite H1. cbv beta iota. rewrite H2. cbv beta iota.
    rewrite Htx. cbv beta iota. rewrite H3. cbv beta iota.
    destruct a as [s|]; [destruct (truthy s) eqn:Hs0;
      [simpl in Ha; rewrite Hs0 in Ha; discriminate|]|];
      cbv beta iota; run_writer; eexists _, _; (split; [reflexivity|]);
      rewrite ?sheet_writes_app, ?Hw2, ?Hw3, ?Hw; reflexivity.
  - intros summary -> Hsum.
    assert (Hw3 : sheet_writes ev3 = []).
    { destruct (analyze_with_gemini_total C tx prompt o2)
        as (? & ? & ? & Heq & Hw & _).
      rewrite H3 in Heq. now injection Heq as <- <- <-. }
    unfold process_url, bind, try_except, logging, require, ret, raise.
    cbv beta iota zeta. rewrite H1. cbv beta iota. rewrite H2. cbv beta iota.
    rewrite Htx. cbv beta iota. rewrite H3. cbv beta iota.
    rewrite Hsum. cbv beta iota. run_writer.
    eexists _, _. split; [reflexivity|].
    rewrite ?sheet_writes_app, ?Hw2, ?Hw3, ?Hw. cbn [sheet_writes app].
    now rewrite ?app_nil_r.
Qed.

(** Every attempt returns normally, and is one of two: a success, with
    the three cell writes of PROCESSING and COMPLETED, or a failure, with
    the three cell writes of PROCESSING and ERROR. *)
Lemma process_url_cases e o :
  exists b o' evs,
    process_url C prompt e o = (Ok b, o', evs)
    /\ ((b = true
         /\ exists tx o2 summary o3 ev3,
             analyze_with_gemini C tx prompt o2 = (Ok (Some summary), o3, ev3)
             /\ truthy summary = true
             /\ sheet_writes evs =
                  [("C" ++ str_of_int (row e), "PROCESSING");
                   ("B" ++ str_of_int (row e), cell_text summary);
                   ("C" ++ str_of_int (row e), "COMPLETED")])
        \/ (b = false
            /\ exists description,
                (description = "Could not retrieve transcript using Supadata"
                 \/ description = "Gemini analysis failed")
                /\ sheet_writes evs =
                     [("C" ++ str_of_int (row e), "PROCESSING");
                      ("B" ++ str_of_int (row e), "Error: " ++ description);
                      ("C" ++ str_of_int (row e), "ERROR")])).
Proof.
  destruct (update_sheet_status_total C (row e) "PROCESSING" "" o)
    as (o1 & ev1 & H1 & Hw1 & _).
  destruct (get_transcript_total C (url e) o1) as (t & o2 & ev2 & H2 & _).
  destruct (process_url_run e o o1 ev1 t o2 ev2 H1 H2) as [Hfetch Hrest].
  destruct (falsy t) eqn:Ht.
  - destruct (Hfetch eq_refl) as (o' & evs & Hrun & Hw).
    exists false, o', evs. split; [exact Hrun|]. right. split; [reflexivity|].
    exists "Could not retrieve transcript using Supadata".
    split; [now left|]. rewrite Hw, Hw1. reflexivity.
  - destruct t as [tx|]; [|discriminate].
    simpl in Ht. apply negb_false_iff in Ht.
    destruct (analyze_with_gemini_total C tx prompt o2)
      as (a & o3 & ev3 & H3 & _).
    destruct (Hrest tx eq_refl Ht a o3 ev3 H3) as [Hsum Hdone].
    destruct (falsy a) eqn:Ha.
    + destruct (Hsum eq_refl) as (o' & evs & Hrun & Hw).
      exists false, o', evs. split; [exact Hrun|]. right. split; [reflexivity|].
      exists "Gemini analysis failed".
      split; [now right|]. rewrite Hw, Hw1. reflexivity.
    + destruct a as [summary|]; [|discriminate].
      simpl in Ha. apply negb_false_iff in Ha.
      destruct (Hdone summary eq_refl Ha) as (o' & evs & Hrun & Hw).
      exists true, o', evs. split; [exact Hrun|]. left. split; [reflexivity|].
      exists tx, o2, summary, o3, ev3. repeat split; trivial.
      rewrite Hw, Hw1. unfold writer_writes. rewrite Ha. reflexivity.
Qed.

Lemma status_values_three r x y z :
  status_values r
    [UpdateAcell ("C" ++ str_of_int r) x;
     UpdateAcell ("B" ++ str_of_int r) y;
     UpdateAcell ("C" ++ str_of_int r) z] = [x; z].
Proof.
  unfold status_values. cbn [sheet_writes filter fst].
  rewrite String.eqb_refl.
  replace (String.eqb ("B" ++ str_of_int r) ("C" ++ str_of_int r)) with false
    by reflexivity.
  reflexivity.
Qed.

Lemma status_values_of_writes r evs x y z :
  sheet_writes evs =
    [("C" ++ str_of_int r, x); ("B" ++ str_of_int r, y);
     ("C" ++ str_of_int r, z)] ->
  status_values r evs = [x; z].
Proof.
  intros H. rewrite <- (status_values_three r x y z).
  unfold status_values. now rewrite H.
Qed.

(** C2: in one attempt, the cell writes for the row are the status
    PROCESSING alone (no result before it), then one result text, then one
    terminal status: COMPLETED after the summary, on success, or ERROR
    after an error message, on failure.  The status values written are
    PROCESSING and then that one terminal value; the empty status is never
    written and nothing follows the terminal status. *)
Theorem process_url_status_monotonic (e : WorklistEntry) (o : O) :
  exists b o' evs terminal text,
    process_url C prompt e o = (Ok b, o', evs)
    /\ sheet_writes evs =
         [("C" ++ str_of_int (row e), "PROCESSING");
          ("B" ++ str_of_int (row e), text);
          ("C" ++ str_of_int (row e), terminal)]
    /\ status_values (row e) evs = ["PROCESSING"; terminal]
    /\ ((b = true /\ terminal = "COMPLETED"
         /\ exists tx o2 summary o3 ev3,
             analyze_with_gemini C tx prompt o2 = (Ok (Some summary), o3, ev3)
             /\ text = cell_text summary)
        \/ (b = false /\ terminal = "ERROR"
            /\ exists description, text = "Error: " ++ description)).
Proof.
  destruct (process_url_cases e o) as (b & o' & evs & Hrun & Hcase).
  destruct Hcase as [[-> (tx & o2 & summary & o3 & ev3 & Ha & _ & Hw)]
                    | [-> (d & _ & Hw)]].
  - exists true, o', evs, "COMPLETED", (cell_text summary).
    split; [exact Hrun|]. split; [exact Hw|].
    split; [exact (status_values_of_writes _ _ _ _ _ Hw)|].
    left. repeat split. now exists tx, o2, summary, o3, ev3.
  - exists false, o', evs, "ERROR", ("Error: " ++ d).
    split; [exact Hrun|]. split; [exact Hw|].
    split; [exact (status_values_of_writes _ _ _ _ _ Hw)|].
    right. repeat split. now exists d.
Qed.

(** The loop of [run] returns normally and counts every entry once, as a
    success or as an error. *)
Lemma run_loop_total new_urls processed_count error_count o :
  exists p q o' evs,
    run_loop C prompt new_urls processed_count error_count o
      = (Ok (p, q), o', evs)
    /\ p + q = processed_count + error_count + Z.of_nat (List.length new_urls)
    /\ processed_count <= p /\ error_count <= q.
Proof.
  revert processed_count error_count o.
  induction new_urls as [|e rest IH]; intros p0 q0 o.
  - exists p0, q0, o, []. cbn [List.length]. repeat split; lia.
  - cbn [run_loop]. unfold bind at 1. unfold try_except, bind at 1.
    destruct (process_url_cases e o) as (b & o1 & ev1 & Hrun & _).
    rewrite Hrun. cbv beta iota.
    destruct b; unfold ret; cbv beta iota; cbn [fst snd];
      match goal with
      | |- context [run_loop C prompt rest ?p ?q ?o] =>
          destruct (IH p q o) as (p' & q' & o' & evs & Hloop & Hsum & Hp & Hq)
      end; rewrite Hloop; eexists _, _, _, _; (split; [reflexivity|]);
      cbn [List.length]; repeat split; lia.
Qed.

(** C1 (amended): an attempt never raises.  When the fetcher yields no
    usable text, or the summarizer yields none, the attempt returns
    [False] and its cell writes end with the message, prefixed by
    [Error: ], in column B and ERROR in column C; every attempt that
    returns [False] ends so.  When both yield a text the attempt returns
    [True] after the COMPLETED writes, whether or not the worksheet
    accepted them: a refused cell write does not change the outcome.  The
    loop of [run] returns normally and counts every entry, so a failed
    record does not stop the run. *)
Theorem process_url_contains_failures (e : WorklistEntry) (o : O) :
  exists b o' evs,
    process_url C prompt e o = (Ok b, o', evs)
    /\ (b = false ->
        exists description,
          sheet_writes evs =
            [("C" ++ str_of_int (row e), "PROCESSING");
             ("B" ++ str_of_int (row e), "Error: " ++ description);
             ("C" ++ str_of_int (row e), "ERROR")])
    /\ (forall o1 ev1 t o2 ev2,
          update_sheet_status C (row e) "PROCESSING" "" o = (Ok tt, o1, ev1) ->
          get_transcript C (url e) o1 = (Ok t, o2, ev2) ->
          (falsy t = true ->
           b = false
           /\ sheet_writes evs =
                [("C" ++ str_of_int (row e), "PROCESSING");
                 ("B" ++ str_of_int (row e),
                  "Error: Could not retrieve transcript using Supadata");
                 ("C" ++ str_of_int (row e), "ERROR")])
          /\ (forall tx a o3 ev3,
                t = Some tx -> truthy tx = true ->
                analyze_with_gemini C tx prompt o2 = (Ok a, o3, ev3) ->
                (falsy a = true ->
                 b = false
                 /\ sheet_writes evs =
                      [("C" ++ str_of_int (row e), "PROCESSING");
                       ("B" ++ str_of_int (row e), "Error: Gemini analysis failed");
                       ("C" ++ str_of_int (row e), "ERROR")])
                /\ (forall summary,
                      a = Some summary -> truthy summary = true ->
                      b = true
                      /\ sheet_writes evs =
                           [("C" ++ str_of_int (row e), "PROCESSING");
                            ("B" ++ str_of_int (row e), cell_text summary);
                            ("C" ++ str_of_int (row e), "COMPLETED")])))
    /\ (forall new_urls processed_count error_count o0,
          exists p q o1 evs1,
            run_loop C prompt new_urls processed_count error_count o0
              = (Ok (p, q), o1, evs1)
            /\ p + q = processed_count + error_count
                       + Z.of_nat (List.length new_urls)).
Proof.
  destruct (process_url_cases e o) as (b & o' & evs & Hrun & Hcase).
  exists b, o', evs. split; [exact Hrun|]. split; [|split].
  - intros ->. destruct Hcase as [[Hb _] | [_ (d & _ & Hw)]];
      [discriminate | now exists d].
  - intros o1 ev1 t o2 ev2 H1 H2.
    assert (Hw1 : sheet_writes ev1 = [("C" ++ str_of_int (row e), "PROCESSING")]).
    { destruct (update_sheet_status_total C (row e) "PROCESSING" "" o)
        as (? & ? & Heq & Hw & _).
      rewrite H1 in Heq. now injection Heq as <- <-. }
    destruct (process_url_run e o o1 ev1 t o2 ev2 H1 H2) as [Hfetch Hrest].
    split.
    + intros Ht. destruct (Hfetch Ht) as (o3 & evs3 & Hrun3 & Hw).
      rewrite Hrun in Hrun3. injection Hrun3 as -> _ <-.
      split; [reflexivity|]. rewrite Hw, Hw1. reflexivity.
    + intros tx a o3 ev3 -> Htx H3.
      destruct (Hrest tx eq_refl Htx a o3 ev3 H3) as [Hsum Hdone]. split.
      * intros Ha. destruct (Hsum Ha) as (o4 & evs4 & Hrun4 & Hw).
        rewrite Hrun in Hrun4. injection Hrun4 as -> _ <-.
        split; [reflexivity|]. rewrite Hw, Hw1. reflexivity.
      * intros summary -> Hs.
        destruct (Hdone summary eq_refl Hs) as (o4 & evs4 & Hrun4 & Hw).
        rewrite Hrun in Hrun4. injection Hrun4 as -> _ <-.
        split; [reflexivity|]. rewrite Hw, Hw1.
        unfold writer_writes. rewrite Hs. reflexivity.
  - intros new_urls p0 q0 o0.
    destruct (run_loop_total new_urls p0 q0 o0)
      as (p & q & o1 & evs1 & Hloop & Hsum & _).
    now exists p, q, o1, evs1.
Qed.

(** An exception of the transcription service is one of the contained
    failures: the attempt returns [False] after the ERROR writes. *)
Lemma process_url_transcription_raises e o o1 ev1 x o2 :
  update_sheet_status C (row e) "PROCESSING" "" o = (Ok tt, o1, ev1) ->
  supadata_transcript C (url e) o1 = (Raise x, o2) ->
  exists o' evs,
    process_url C prompt e o = (Ok false, o', evs)
    /\ sheet_writes evs =
         [("C" ++ str_of_int (row e), "PROCESSING");
          ("B" ++ str_of_int (row e),
           "Error: Could not retrieve transcript using Supadata");
          ("C" ++ str_of_int (row e), "ERROR")].
Proof.
  intros H1 Hx.
  destruct (get_transcript_collaborator_raises C _ _ _ _ Hx) as (ev2 & H2).
  destruct (proj1 (process_url_run e o o1 ev1 None o2 ev2 H1 H2) eq_refl)
    as (o' & evs & Hrun & Hw).
  exists o', evs. split; [exact Hrun|].
  destruct (update_sheet_status_total C (row e) "PROCESSING" "" o)
    as (? & ? & Heq & Hw1 & _).
  rewrite H1 in Heq. injection Heq as <- <-.
  rewrite Hw, Hw1. reflexivity.
Qed.

(** [run] returns normally whatever the collaborators do. *)
Lemma run_total o :
  exists o' evs, run C prompt o = (Ok tt, o', evs).
Proof.
  unfold run, bind at 1, logging at 1. cbv beta iota.
  unfold try_except, bind at 1.
  destruct (sheet_get_all_values C o) as [[all_values|x] o1] eqn:Hread.
  - rewrite (get_new_urls_read_ok C _ _ _ Hread). cbv beta iota.
    destruct (scan_rows all_values 1) as [|e rest].
    + unfold logging. eexists _, _. reflexivity.
    + unfold bind.
      destruct (run_loop_total (e :: rest) 0 0 o1)
        as (p & q & o2 & evs & Hloop & _).
      rewrite Hloop. cbv beta iota. unfold logging.
      eexists _, _. reflexivity.
  - rewrite (get_new_urls_read_fails C _ _ _ Hread). cbv beta iota.
    unfold logging. eexists _, _. reflexivity.
Qed.

(** C5: when the read of the worksheet raises, the scanner returns the
    empty worklist, and [run] returns normally after logging the failure,
    without a single cell write. *)
Theorem run_scan_failure_writes_nothing (o o1 : O) (x : exn) :
  sheet_get_all_values C o = (Raise x, o1) ->
  (exists evs0, get_new_urls C o = (Ok [], o1, evs0))
  /\ exists evs,
      run C prompt o = (Ok tt, o1, evs)
      /\ sheet_writes evs = []
      /\ In (ERROR, "Failed to get URLs from sheet: " ++ str_of_exn x)
            (log_entries evs)
      /\ In (INFO, "No new URLs to process") (log_entries evs).
Proof.
  intros Hread. split.
  - rewrite (get_new_urls_read_fails C _ _ _ Hread). now eexists.
  - unfold run, bind at 1, logging at 1. cbv beta iota.
    unfold try_except, bind at 1.
    rewrite (get_new_urls_read_fails C _ _ _ Hread). cbv beta iota.
    unfold logging. eexists. split; [reflexivity|].
    cbn [sheet_writes log_entries app]. split; [reflexivity|].
    split; [right; left; reflexivity | right; right; left; reflexivity].
Qed.

End Processor.

(** C1 as first stated fails on a failure of the result write: on a
    worksheet that refuses the write of the summary to column B, the
    attempt still returns [True], and no ERROR status is written. *)
Lemma process_url_result_write_failure_counterexample :
  sheet_update_acell
    (scripted (Ok []) write_B_fails transcript_hello generate_summary)
    "B1" "a summary" tt
  = (Raise (Exception "APIError: quota exceeded"), tt)
  /\ exists evs,
      process_url
        (scripted (Ok []) write_B_fails transcript_hello generate_summary)
        "PROMPT" example_entry tt = (Ok true, tt, evs)
      /\ sheet_writes evs =
           [("C1", "PROCESSING"); ("B1", "a summary"); ("C1", "COMPLETED")]
      /\ In (ERROR, "Failed to update result in B1: APIError: quota exceeded")
            (log_entries evs)
      /\ ~ In ("C1", "ERROR") (sheet_writes evs).
Proof.
  split; [reflexivity|]. eexists. split; [reflexivity|].
  split; [reflexivity|]. split.
  - cbn. tauto.
  - cbn. intros [H|[H|[H|[]]]]; discriminate H.
Qed.

(** C1 (amended), on a transcription service that raises. *)
Lemma process_url_contains_failures_witness :
  exists o' evs,
    process_url
      (scripted (Ok []) write_ok transcript_fails generate_summary)
      "PROMPT" example_entry tt = (Ok false, o', evs)
    /\ sheet_writes evs =
         [("C1", "PROCESSING");
          ("B1", "Error: Could not retrieve transcript using Supadata");
          ("C1", "ERROR")].
Proof.
  destruct (process_url_contains_failures
              (scripted (Ok []) write_ok transcript_fails generate_summary)
              "PROMPT" example_entry tt)
    as (b & o' & evs & Hrun & _ & Hfail & _).
  destruct (proj1 (Hfail tt _ None tt _ eq_refl eq_refl) eq_refl) as [-> Hw].
  exists o', evs. split; [exact Hrun | exact Hw].
Defined.

(** C5, on a worksheet whose read raises. *)
Lemma run_scan_failure_writes_nothing_witness :
  (exists evs0,
      get_new_urls
        (scripted (Raise (Exception "boom")) write_ok transcript_hello
                  generate_summary) tt = (Ok [], tt, evs0))
  /\ exists evs,
      run (scripted (Raise (Exception "boom")) write_ok transcript_hello
                    generate_summary) "PROMPT" tt = (Ok tt, tt, evs)
      /\ sheet_writes evs = []
      /\ In (ERROR, "Failed to get URLs from sheet: boom") (log_entries evs)
      /\ In (INFO, "No new URLs to process") (log_entries evs).
Proof.
  exact (run_scan_failure_writes_nothing
           (scripted (Raise (Exception "boom")) write_ok transcript_hello
                     generate_summary)
           "PROMPT" tt tt (Exception "boom") eq_refl).
Defined.

(** The scenarios of the run loop: a failed record and a successful one in
    the same worklist are both processed and counted. *)
Example run_loop_one_failure_one_success :
  exists evs,
    run_loop
      (scripted (Ok []) write_ok
         (fun u => if String.eqb u "https://youtu.be/bad"
                   then Raise (SupadataError "transcript-unavailable")
                   else Ok (TranscriptStr "hello world"))
         generate_summary)
      "PROMPT"
      [{| url := "https://youtu.be/bad"; row := 1 |};
       {| url := "https://youtu.be/abc"; row := 2 |}] 0 0 tt
    = (Ok (1, 1), tt, evs)
    /\ sheet_writes evs =
         [("C1", "PROCESSING");
          ("B1", "Error: Could not retrieve transcript using Supadata");
          ("C1", "ERROR");
          ("C2", "PROCESSING"); ("B2", "a summary"); ("C2", "COMPLETED")].
Proof.
  eexists. split; reflexivity.
Qed.

(** * Further properties of the code *)

(** ** URL classifier *)

Lemma lower_app a b : lower (a ++ b) = lower a ++ lower b.
Proof.
  induction a as [|c a IH]; simpl; [reflexivity | now rewrite IH].
Qed.

Lemma append_assoc (a b c : string) : (a ++ b) ++ c = a ++ b ++ c.
Proof.
  induction a as [|x a IH]; simpl; [reflexivity | now rewrite IH].
Qed.

(** The classifier looks for a domain anywhere in the text, not in the
    host part: whatever is put before or after a supported URL, the whole
    is supported too. *)
Theorem is_supported_video_url_superstring (pre u post : string) :
  is_supported_video_url u = true ->
  is_supported_video_url (pre ++ u ++ post) = true.
Proof.
  unfold is_supported_video_url. rewrite !existsb_exists.
  intros (d & Hin & Hd). exists d. split; [exact Hin|].
  apply contains_iff in Hd. apply contains_iff.
  destruct Hd as (a & b & Hu).
  exists (lower pre ++ a), (b ++ lower post).
  rewrite !lower_app, Hu, !append_assoc. reflexivity.
Qed.

Lemma is_supported_video_url_superstring_witness :
  is_supported_video_url
    ("https://example.org/?next=" ++ "YouTube.com" ++ "/watch") = true.
Proof.
  apply (is_supported_video_url_superstring
           "https://example.org/?next=" "YouTube.com" "/watch").
  reflexivity.
Defined.

(** ** Scanner *)

(** Scanning a store made of two blocks of rows is scanning the first
    block and then the second one, numbered after the first: rows added at
    the end of the store leave the entries of the earlier rows as they
    were. *)
Theorem scan_rows_app (l1 l2 : list (list string)) (k : Z) :
  scan_rows (l1 ++ l2) k =
    (scan_rows l1 k ++ scan_rows l2 (k + Z.of_nat (List.length l1)))%list.
Proof.
  revert k. induction l1 as [|r l1 IH]; intros k.
  - cbn [app List.length scan_rows]. now rewrite Z.add_0_r.
  - rewrite <- app_comm_cons, !scan_rows_cons, IH.
    replace (k + 1 + Z.of_nat (List.length l1))
      with (k + Z.of_nat (List.length (r :: l1)))
      by (cbn [List.length]; lia).
    now destruct (eligible r).
Qed.

Section ScannerMore.

Context {O : Type} (C : Collaborators O).

(** A row whose URL cell is empty or fails the classifier is never in the
    worklist, whatever its status cell. *)
Theorem get_new_urls_excludes_unsupported_urls
  (o o1 : O) (all_values : list (list string)) (i : nat) (r : list string) :
  sheet_get_all_values C o = (Ok all_values, o1) ->
  nth_error all_values i = Some r ->
  is_supported_video_url (url_cell r) = false ->
  exists worklist evs,
    get_new_urls C o = (Ok worklist, o1, evs)
    /\ forall e, In e worklist -> row e <> Z.of_nat i + 1.
Proof.
  intros Hread Hn Hu. rewrite (get_new_urls_read_ok _ _ _ _ Hread).
  eexists _, _. split; [reflexivity|].
  intros e He Hrow. apply scan_rows_In in He.
  destruct He as (j & r' & Hn' & He & ->). cbn [row] in Hrow.
  assert (j = i) by lia. subst j. rewrite Hn in Hn'. injection Hn' as <-.
  unfold eligible in He.
  rewrite is_supported_video_url_strip, Hu, andb_false_r in He.
  discriminate.
Qed.

(** Every entry of the worklist stands for a row of the store, at the
    position the entry names: its URL is the URL cell of that row with the
    surrounding whitespace stripped, it is not empty, the classifier
    accepts it, and the status cell of the row is empty once stripped. *)
Theorem get_new_urls_entries_sound
  (o o1 : O) (all_values : list (list string)) :
  sheet_get_all_values C o = (Ok all_values, o1) ->
  exists worklist evs,
    get_new_urls C o = (Ok worklist, o1, evs)
    /\ forall e, In e worklist ->
       exists i r,
         nth_error all_values i = Some r
         /\ row e = Z.of_nat i + 1
         /\ 1 <= row e <= Z.of_nat (List.length all_values)
         /\ url e = strip (url_cell r)
         /\ url e <> ""
         /\ is_supported_video_url (url e) = true
         /\ strip (status_cell r) = "".
Proof.
  intros Hread. rewrite (get_new_urls_read_ok _ _ _ _ Hread).
  eexists _, _. split; [reflexivity|].
  intros e He. apply scan_rows_In in He.
  destruct He as (i & r & Hn & He & ->). exists i, r. cbn [row url].
  unfold eligible in He. apply andb_true_iff in He. destruct He as [He Hs].
  apply andb_true_iff in He. destruct He as [Hu Hc].
  assert (Hlt : (i < List.length all_values)%nat)
    by (apply nth_error_Some; rewrite Hn; discriminate).
  repeat split; trivial; try lia.
  - intros Hempty. rewrite Hempty in Hu. discriminate.
  - apply negb_true_iff in Hs. now apply truthy_false.
Qed.

End ScannerMore.

Lemma get_new_urls_excludes_unsupported_urls_witness :
  exists worklist evs,
    get_new_urls
      (scripted (Ok [["https://example.org/video"; ""; ""]])
                write_ok transcript_hello generate_summary) tt
    = (Ok worklist, tt, evs)
    /\ forall e, In e worklist -> row e <> Z.of_nat 0 + 1.
Proof.
  apply (get_new_urls_excludes_unsupported_urls
           (scripted (Ok [["https://example.org/video"; ""; ""]])
                     write_ok transcript_hello generate_summary)
           tt tt [["https://example.org/video"; ""; ""]] 0
           ["https://example.org/video"; ""; ""]);
    reflexivity.
Defined.

Lemma get_new_urls_entries_sound_witness :
  exists worklist evs,
    get_new_urls
      (scripted (Ok [[]; [" https://x.com/v "]; ["https://x.com/w"; ""; "ERROR"]])
                write_ok transcript_hello generate_summary) tt
    = (Ok worklist, tt, evs)
    /\ forall e, In e worklist ->
       exists i r,
         nth_error [[]; [" https://x.com/v "]; ["https://x.com/w"; ""; "ERROR"]] i
           = Some r
         /\ row e = Z.of_nat i + 1
         /\ 1 <= row e <= 3
         /\ url e = strip (url_cell r)
         /\ url e <> ""
         /\ is_supported_video_url (url e) = true
         /\ strip (status_cell r) = "".
Proof.
  exact (get_new_urls_entries_sound
           (scripted (Ok [[]; [" https://x.com/v "]; ["https://x.com/w"; ""; "ERROR"]])
                     write_ok transcript_hello generate_summary)
           tt tt _ eq_refl).
Defined.

(** ** Status writer *)

Lemma take_app_exact a b : take (String.length a) (a ++ b) = a.
Proof.
  induction a as [|c a IH]; simpl; [now destruct b | now rewrite IH].
Qed.

Lemma slice_to_app_exact a b n : len a = n -> slice_to (a ++ b) n = a.
Proof.
  intros <-. unfold slice_to, len. rewrite Nat2Z.id. apply take_app_exact.
Qed.

Lemma slice_to_prefix s n : exists rest, s = slice_to s n ++ rest.
Proof. apply take_prefix. Qed.

Lemma slice_to_slice_to s n :
  0 <= n <= len s -> slice_to (slice_to s n ++ truncation_marker) n = slice_to s n.
Proof.
  intros H. apply slice_to_app_exact. now apply len_slice_to.
Qed.

(** Both cuts are stable and bounded: a text that was cut once is not cut
    again (the marker does not pile up), and what is written to column B
    or sent to the language model is never longer than the limit plus the
    15 characters of the marker. *)
Theorem truncation_idempotent_and_bounded (s : string) :
  cell_text (cell_text s) = cell_text s
  /\ len (cell_text s) <= max_cell_chars + 15
  /\ sent_text (sent_text s) = sent_text s
  /\ len (sent_text s) <= max_chars + 15.
Proof.
  assert (Hm : len truncation_marker = 15) by reflexivity.
  split; [|split; [|split]].
  - unfold cell_text at 2 3.
    destruct (Z.gtb_spec (len s) max_cell_chars) as [Hgt|Hle].
    + unfold cell_text.
      assert (Hl : len (slice_to s max_cell_chars) = max_cell_chars)
        by (apply len_slice_to; unfold max_cell_chars in *; lia).
      destruct (Z.gtb_spec (len (slice_to s max_cell_chars ++ truncation_marker))
                  max_cell_chars) as [_|Hle].
      * rewrite slice_to_slice_to; [reflexivity|].
        unfold max_cell_chars in *; lia.
      * rewrite len_append, Hl, Hm in Hle. lia.
    + now apply cell_text_short.
  - unfold cell_text.
    destruct (Z.gtb_spec (len s) max_cell_chars) as [Hgt|Hle]; [|lia].
    rewrite len_append, Hm, len_slice_to; [lia|].
    unfold max_cell_chars in *; lia.
  - unfold sent_text at 2 3.
    destruct (Z.gtb_spec (len s) max_chars) as [Hgt|Hle].
    + unfold sent_text.
      assert (Hl : len (slice_to s max_chars) = max_chars)
        by (apply len_slice_to; unfold max_chars in *; lia).
      destruct (Z.gtb_spec (len (slice_to s max_chars ++ truncation_marker))
                  max_chars) as [_|Hle].
      * rewrite slice_to_slice_to; [reflexivity|].
        unfold max_chars in *; lia.
      * rewrite len_append, Hl, Hm in Hle. lia.
    + now apply sent_text_short.
  - unfold sent_text.
    destruct (Z.gtb_spec (len s) max_chars) as [Hgt|Hle]; [|lia].
    rewrite len_append, Hm, len_slice_to; [lia|].
    unfold max_chars in *; lia.
Qed.

Section StatusWriterMore.

Context {O : Type} (C : Collaborators O).

(** Called without a result, as for the PROCESSING mark, the status writer
    touches column C only: one write, and column B keeps what it held. *)
Theorem update_sheet_status_empty_result_leaves_column_B
  (row : Z) (status : string) (o : O) :
  exists evs,
    update_sheet_status C row status "" o
      = (Ok tt, snd (sheet_update_acell C ("C" ++ str_of_int row) status o), evs)
    /\ sheet_writes evs = [("C" ++ str_of_int row, status)]
    /\ forall cell value,
         In (cell, value) (sheet_writes evs) -> startswith "B" cell = false.
Proof.
  destruct (sheet_update_acell C ("C" ++ str_of_int row) status o)
    as [rC o2] eqn:HC.
  rewrite (update_sheet_status_without_result C _ _ "" _ _ _ eq_refl HC).
  eexists. split; [reflexivity|].
  assert (Hw : sheet_writes
                 [UpdateAcell ("C" ++ str_of_int row) status;
                  match rC with
                  | Ok _ => Log INFO ("Updated status in C" ++ str_of_int row
                                      ++ ": " ++ status)
                  | Raise e => Log ERROR ("Failed to update status in C"
                                          ++ str_of_int row ++ ": " ++ str_of_exn e)
                  end] = [("C" ++ str_of_int row, status)])
    by (destruct rC; reflexivity).
  split; [exact Hw|]. rewrite Hw.
  intros cell value [H|[]]. injection H as <- _. reflexivity.
Qed.

End StatusWriterMore.

(** ** Events, continued *)

Lemma transcript_requests_app (a b : list event) :
  transcript_requests (a ++ b)
  = (transcript_requests a ++ transcript_requests b)%list.
Proof.
  induction a as [|[] a IH]; simpl; rewrite ?IH; reflexivity.
Qed.

Lemma generate_requests_app (a b : list event) :
  generate_requests (a ++ b)
  = (generate_requests a ++ generate_requests b)%list.
Proof.
  induction a as [|[] a IH]; simpl; rewrite ?IH; reflexivity.
Qed.

(** ** Transcript fetcher, continued *)

Section FetcherMore.

Context {O : Type} (C : Collaborators O).

(** The fetcher asks the transcription service once, for the URL it was
    given, and does nothing else outside the log.  It never raises: an
    exception of the service, of either kind, comes back as [None], with
    an ERROR entry in the log that tells the two kinds apart. *)
Theorem get_transcript_contains_collaborator_errors (url : string) (o : O) :
  exists t evs,
    get_transcript C url o = (Ok t, snd (supadata_transcript C url o), evs)
    /\ transcript_requests evs = [url]
    /\ sheet_writes evs = []
    /\ generate_requests evs = []
    /\ (forall msg,
          fst (supadata_transcript C url o) = Raise (SupadataError msg) ->
          t = None
          /\ In (ERROR, "Supadata error for " ++ url ++ ": " ++ msg)
                (log_entries evs))
    /\ (forall msg,
          fst (supadata_transcript C url o) = Raise (Exception msg) ->
          t = None
          /\ In (ERROR, "Unexpected error getting transcript for " ++ url
                        ++ ": " ++ msg) (log_entries evs)).
Proof.
  unfold get_transcript, try_except, bind, call, logging, ret, raise, len_of.
  cbv beta iota.
  destruct (supadata_transcript C url o) as [[resp|e] o1]; cbv beta iota.
  - destruct resp as [[c|] lang | [c|] lang | s | attrs]; cbv beta iota;
      try (eexists _, _; split; [reflexivity|];
           do 3 (split; [reflexivity|]);
           split; intros msg Hm; discriminate Hm).
    destruct (first_attr ["text"; "transcript"; "data"; "result"] attrs)
      as [[n v]|]; cbv beta iota;
      eexists _, _; (split; [reflexivity|]);
      do 3 (split; [reflexivity|]);
      split; intros msg Hm; discriminate Hm.
  - destruct e as [m|m]; cbv beta iota;
      eexists _, _; (split; [reflexivity|]);
      do 3 (split; [reflexivity|]);
      split; intros msg Hm; cbn [fst] in Hm; try discriminate Hm;
      injection Hm as <-; (split; [reflexivity | cbn; auto]).
Qed.

(** The three shapes of answer the fetcher knows (an object with a
    [content] attribute, a dict with a ['content'] key, a plain string)
    all come back as the same text. *)
Theorem get_transcript_normalises_shapes
  (url s : string) (lang : option string) (resp : transcript_response) (o : O) :
  fst (supadata_transcript C url o) = Ok resp ->
  resp = TranscriptObject (Some s) lang
  \/ resp = TranscriptDict (Some s) lang
  \/ resp = TranscriptStr s ->
  exists evs,
    get_transcript C url o
      = (Ok (Some s), snd (supadata_transcript C url o), evs).
Proof.
  intros Hresp Hshape.
  unfold get_transcript, try_except, bind, call, logging, ret, raise, len_of.
  cbv beta iota.
  destruct (supadata_transcript C url o) as [r o1]. cbn [fst snd] in *.
  subst r. cbv beta iota.
  destruct Hshape as [-> | [-> | ->]]; cbv beta iota; eexists; reflexivity.
Qed.

(** For an answer of an unknown shape the fetcher falls back on the
    attributes [text], [transcript], [data] and [result], in this order of
    preference whatever the order in which the object lists them; with
    none of the four the result is [None]. *)
Theorem get_transcript_fallback_order
  (url : string) (attrs : list (string * string)) (o : O) :
  fst (supadata_transcript C url o) = Ok (TranscriptOther attrs) ->
  exists evs,
    get_transcript C url o
      = (Ok match lookup_attr "text" attrs with
            | Some v => Some v
            | None =>
                match lookup_attr "transcript" attrs with
                | Some v => Some v
                | None =>
                    match lookup_attr "data" attrs with
                    | Some v => Some v
                    | None => lookup_attr "result" attrs
                    end
                end
            end,
         snd (supadata_transcript C url o), evs).
Proof.
  intros Hresp.
  unfold get_transcript, try_except, bind, call, logging, ret, raise.
  cbv beta iota.
  destruct (supadata_transcript C url o) as [r o1]. cbn [fst snd] in *.
  subst r. cbv beta iota. cbn [first_attr].
  destruct (lookup_attr "text" attrs); [eexists; reflexivity|].
  destruct (lookup_attr "transcript" attrs); [eexists; reflexivity|].
  destruct (lookup_attr "data" attrs); [eexists; reflexivity|].
  destruct (lookup_attr "result" attrs); eexists; reflexivity.
Qed.

End FetcherMore.

Lemma get_transcript_normalises_shapes_witness :
  exists evs,
    get_transcript
      (scripted (Ok []) write_ok
         (fun _ => Ok (TranscriptDict (Some "spoken words") None))
         generate_summary)
      "https://youtu.be/abc" tt = (Ok (Some "spoken words"), tt, evs).
Proof.
  apply (get_transcript_normalises_shapes
           (scripted (Ok []) write_ok
              (fun _ => Ok (TranscriptDict (Some "spoken words") None))
              generate_summary)
           "https://youtu.be/abc" "spoken words" None
           (TranscriptDict (Some "spoken words") None) tt eq_refl).
  right. left. reflexivity.
Defined.

Lemma get_transcript_fallback_order_witness :
  exists evs,
    get_transcript
      (scripted (Ok []) write_ok
         (fun _ => Ok (TranscriptOther
                         [("data", "from data"); ("id", "42");
                          ("transcript", "from transcript")]))
         generate_summary)
      "https://youtu.be/abc" tt = (Ok (Some "from transcript"), tt, evs).
Proof.
  exact (get_transcript_fallback_order
           (scripted (Ok []) write_ok
              (fun _ => Ok (TranscriptOther
                              [("data", "from data"); ("id", "42");
                               ("transcript", "from transcript")]))
              generate_summary)
           "https://youtu.be/abc"
           [("data", "from data"); ("id", "42");
            ("transcript", "from transcript")] tt eq_refl).
Defined.

(** ** Summarizer, continued *)

Section SummarizerMore.

Context {O : Type} (C : Collaborators O).

(** The summarizer makes one request, carrying the system prompt as it
    got it, and never raises.  Its result is the parsed text of the answer
    when there is one (be it empty), and [None] in every other case: the
    language model raised, or its answer had nothing parsed; the log then
    has an ERROR entry. *)
Theorem analyze_with_gemini_result (transcript system_prompt : string) (o : O) :
  exists evs,
    analyze_with_gemini C transcript system_prompt o
      = (Ok match fst (genai_generate_content C (sent_text transcript)
                         system_prompt o) with
            | Ok {| parsed := Some text |} => Some text
            | _ => None
            end,
         snd (genai_generate_content C (sent_text transcript) system_prompt o),
         evs)
    /\ generate_requests evs = [(sent_text transcript, system_prompt)]
    /\ transcript_requests evs = []
    /\ (match fst (genai_generate_content C (sent_text transcript)
                     system_prompt o) with
        | Ok {| parsed := Some _ |} => True
        | Ok {| parsed := None |} =>
            In (ERROR, "Gemini analysis failed: 'NoneType' object has no attribute 'text'")
               (log_entries evs)
        | Raise e =>
            In (ERROR, "Gemini analysis failed: " ++ str_of_exn e)
               (log_entries evs)
        end).
Proof.
  unfold analyze_with_gemini, sent_text, try_except, bind, call, logging,
    ret, raise.
  destruct (len transcript >? max_chars); cbv beta iota;
    match goal with
    | |- context [genai_generate_content C ?c ?p ?o] =>
        destruct (genai_generate_content C c p o) as [[[[t|]]|e] o1]
    end; cbv beta iota; eexists; (split; [reflexivity|]);
    repeat split; cbn; auto.
Qed.

End SummarizerMore.

(** ** Record processor, continued *)

Section ProcessorMore.

Context {O : Type} (C : Collaborators O).
Variable prompt : string.

(** The status writer asks nothing of the two services. *)
Lemma update_sheet_status_requests row status result o :
  exists o' evs,
    update_sheet_status C row status result o = (Ok tt, o', evs)
    /\ sheet_writes evs = writer_writes row status result
    /\ transcript_requests evs = []
    /\ generate_requests evs = [].
Proof.
  unfold writer_writes. destruct (truthy result) eqn:Ht.
  - destruct (sheet_update_acell C ("B" ++ str_of_int row) (cell_text result) o)
      as [rB o1] eqn:HB.
    destruct (sheet_update_acell C ("C" ++ str_of_int row) status o1)
      as [rC o2] eqn:HC.
    rewrite (update_sheet_status_with_result C _ _ _ _ _ _ _ _ Ht HB HC).
    eexists _, _. split; [reflexivity|].
    destruct rB, rC; repeat split; reflexivity.
  - destruct (sheet_update_acell C ("C" ++ str_of_int row) status o)
      as [rC o2] eqn:HC.
    rewrite (update_sheet_status_without_result C _ _ _ _ _ _ Ht HC).
    eexists _, _. split; [reflexivity|].
    destruct rC; repeat split; reflexivity.
Qed.

Lemma get_transcript_requests url o :
  exists t evs,
    get_transcript C url o = (Ok t, snd (supadata_transcript C url o), evs)
    /\ sheet_writes evs = []
    /\ transcript_requests evs = [url]
    /\ generate_requests evs = [].
Proof.
  unfold get_transcript, try_except, bind, call, logging, ret, raise, len_of.
  cbv beta iota.
  destruct (supadata_transcript C url o) as [[resp|e] o1]; cbv beta iota.
  - destruct resp as [[c|] lang | [c|] lang | s | attrs]; cbv beta iota;
      try (eexists _, _; split; [reflexivity | repeat split; reflexivity]).
    destruct (first_attr ["text"; "transcript"; "data"; "result"] attrs)
      as [[n v]|]; cbv beta iota;
      eexists _, _; (split; [reflexivity | repeat split; reflexivity]).
  - destruct e; cbv beta iota;
      eexists _, _; (split; [reflexivity | repeat split; reflexivity]).
Qed.

Lemma analyze_with_gemini_requests transcript system_prompt o :
  exists a evs,
    analyze_with_gemini C transcript system_prompt o
      = (Ok a,
         snd (genai_generate_content C (sent_text transcript) system_prompt o),
         evs)
    /\ sheet_writes evs = []
    /\ transcript_requests evs = []
    /\ generate_requests evs = [(sent_text transcript, system_prompt)].
Proof.
  unfold analyze_with_gemini, sent_text, try_except, bind, call, logging,
    ret, raise.
  destruct (len transcript >? max_chars); cbv beta iota;
    match goal with
    | |- context [genai_generate_content C ?c ?p ?o] =>
        destruct (genai_generate_content C c p o) as [[[[t|]]|e] o1]
    end; cbv beta iota; eexists _, _; (split; [reflexivity|]);
    repeat split; reflexivity.
Qed.

(** Every run of [process_url] is one of the three attempts. *)
Lemma process_url_attempt e o :
  exists b o' evs,
    process_url C prompt e o = (Ok b, o', evs)
    /\ attempt C prompt e o b o' evs.
Proof.
  destruct (update_sheet_status_total C (row e) "PROCESSING" "" o)
    as (o1 & ev1 & H1 & _).
  destruct (get_transcript_total C (url e) o1) as (t & o2 & ev2 & H2 & _).
  destruct (falsy t) eqn:Ht.
  - destruct (update_sheet_status_total C (row e) "ERROR"
                "Error: Could not retrieve transcript using Supadata" o2)
      as (o3 & ev3 & H3 & _).
    exists false, o3. eexists. split;
      [|exact (attempt_no_transcript C prompt e o _ _ _ _ _ _ _ H1 H2 Ht H3)].
    unfold process_url, bind, try_except, logging, require, ret, raise.
    cbv beta iota zeta. rewrite H1. cbv beta iota. rewrite H2. cbv beta iota.
    destruct t as [tx|]; [destruct (truthy tx) eqn:Htx;
      [simpl in Ht; rewrite Htx in Ht; discriminate|]|];
      cbv beta iota;
      change ("Error: " ++ str_of_exn
                (Exception "Could not retrieve transcript using Supadata"))
        with "Error: Could not retrieve transcript using Supadata";
      rewrite H3; cbn [app]; now rewrite ?app_nil_r, <- ?app_assoc.
  - destruct t as [tx|]; [|discriminate].
    simpl in Ht. apply negb_false_iff in Ht.
    destruct (analyze_with_gemini_total C tx prompt o2)
      as (a & o3 & ev3 & H3 & _).
    destruct (falsy a) eqn:Ha.
    + destruct (update_sheet_status_total C (row e) "ERROR"
                  "Error: Gemini analysis failed" o3)
        as (o4 & ev4 & H4 & _).
      exists false, o4. eexists. split;
        [|exact (attempt_no_summary C prompt e o _ _ _ _ _ _ _ _ _ _
                   H1 H2 Ht H3 Ha H4)].
      unfold process_url, bind, try_except, logging, require, ret, raise.
      cbv beta iota zeta. rewrite H1. cbv beta iota. rewrite H2. cbv beta iota.
      rewrite Ht. cbv beta iota. rewrite H3. cbv beta iota.
      destruct a as [s|]; [destruct (truthy s) eqn:Hs0;
        [simpl in Ha; rewrite Hs0 in Ha; discriminate|]|];
        cbv beta iota;
        change ("Error: " ++ str_of_exn (Exception "Gemini analysis failed"))
          with "Error: Gemini analysis failed";
        rewrite H4; cbn [app]; now rewrite ?app_nil_r, <- ?app_assoc.
    + destruct a as [summary|]; [|discriminate].
      simpl in Ha. apply negb_false_iff in Ha.
      destruct (update_sheet_status_total C (row e) "COMPLETED" summary o3)
        as (o4 & ev4 & H4 & _).
      exists true, o4. eexists. split;
        [|exact (attempt_completed C prompt e o _ _ _ _ _ _ _ _ _ _
                   H1 H2 Ht H3 Ha H4)].
      unfold process_url, bind, try_except, logging, require, ret, raise.
      cbv beta iota zeta. rewrite H1. cbv beta iota. rewrite H2. cbv beta iota.
      rewrite Ht. cbv beta iota. rewrite H3. cbv beta iota.
      rewrite Ha. cbv beta iota. rewrite H4. cbn [app].
      now rewrite ?app_nil_r, <- ?app_assoc.
Qed.

Lemma update_sheet_status_inv row status result o r o' evs :
  update_sheet_status C row status result o = (r, o', evs) ->
  r = Ok tt
  /\ sheet_writes evs = writer_writes row status result
  /\ transcript_requests evs = []
  /\ generate_requests evs = [].
Proof.
  intros H.
  destruct (update_sheet_status_requests row status result o)
    as (o1 & evs1 & Heq & Hw & Ht & Hg).
  rewrite H in Heq. injection Heq as -> -> ->. auto.
Qed.

Lemma get_transcript_inv url o r o' evs :
  get_transcript C url o = (r, o', evs) ->
  o' = snd (supadata_transcript C url o)
  /\ sheet_writes evs = []
  /\ transcript_requests evs = [url]
  /\ generate_requests evs = [].
Proof.
  intros H.
  destruct (get_transcript_requests url o) as (t & evs1 & Heq & Hw & Ht & Hg).
  rewrite H in Heq. injection Heq as -> -> ->. auto.
Qed.

Lemma analyze_with_gemini_inv transcript system_prompt o r o' evs :
  analyze_with_gemini C transcript system_prompt o = (r, o', evs) ->
  o' = snd (genai_generate_content C (sent_text transcript) system_prompt o)
  /\ sheet_writes evs = []
  /\ transcript_requests evs = []
  /\ generate_requests evs = [(sent_text transcript, system_prompt)].
Proof.
  intros H.
  destruct (analyze_with_gemini_requests transcript system_prompt o)
    as (a & evs1 & Heq & Hw & Ht & Hg).
  rewrite H in Heq. injection Heq as -> -> ->. auto.
Qed.

(** Takes the facts about the steps of an attempt out of their equations. *)
Ltac steps_facts :=
  repeat match goal with
    | H : update_sheet_status C _ _ _ _ = _ |- _ =>
        let Hw := fresh "Hw" in
        let Ht := fresh "Ht" in
        let Hg := fresh "Hg" in
        destruct (update_sheet_status_inv _ _ _ _ _ _ _ H) as (_ & Hw & Ht & Hg);
        clear H
    | H : get_transcript C _ _ = _ |- _ =>
        let Hw := fresh "Hw" in
        let Ht := fresh "Ht" in
        let Hg := fresh "Hg" in
        destruct (get_transcript_inv _ _ _ _ _ H) as (_ & Hw & Ht & Hg);
        clear H
    | H : analyze_with_gemini C _ _ _ = _ |- _ =>
        let Hw := fresh "Hw" in
        let Ht := fresh "Ht" in
        let Hg := fresh "Hg" in
        destruct (analyze_with_gemini_inv _ _ _ _ _ _ H) as (_ & Hw & Ht & Hg);
        clear H
    end.

(** What an attempt leaves behind: the three cell writes of its row, one
    request for the transcript, and at most one request to the language
    model. *)
Lemma attempt_projections e o b o' evs :
  attempt C prompt e o b o' evs ->
  (exists text,
      sheet_writes evs =
        [("C" ++ str_of_int (row e), "PROCESSING");
         ("B" ++ str_of_int (row e), text);
         ("C" ++ str_of_int (row e), terminal_status b)])
  /\ transcript_requests evs = [url e]
  /\ (generate_requests evs = []
      \/ exists tx, generate_requests evs = [(sent_text tx, prompt)]).
Proof.
  intros H. destruct H; steps_facts;
    cbn [sheet_writes transcript_requests generate_requests];
    rewrite ?sheet_writes_app, ?transcript_requests_app, ?generate_requests_app;
    cbn [sheet_writes transcript_requests generate_requests];
    rewrite ?sheet_writes_app, ?transcript_requests_app, ?generate_requests_app;
    cbn [sheet_writes transcript_requests generate_requests];
    repeat match goal with H : _ = _ |- _ => rewrite H; clear H end;
    unfold writer_writes.
  - split; [|split; [reflexivity | now left]].
    eexists. reflexivity.
  - split; [|split; [reflexivity | right; now eexists]].
    eexists. reflexivity.
  - split; [|split; [reflexivity | right; now eexists]].
    match goal with H : truthy ?s = true |- _ => rewrite H end.
    eexists. reflexivity.
Qed.

(** One attempt asks for the transcript once, for the URL of its entry,
    and asks the language model at most once: not at all when the fetcher
    gave no usable text, and otherwise once, with the transcript (cut if
    too long) and the module's prompt as system instruction. *)
Theorem process_url_requests (e : WorklistEntry) (o : O) :
  exists b o' evs,
    process_url C prompt e o = (Ok b, o', evs)
    /\ transcript_requests evs = [url e]
    /\ (forall o1 ev1 t o2 ev2,
          update_sheet_status C (row e) "PROCESSING" "" o = (Ok tt, o1, ev1) ->
          get_transcript C (url e) o1 = (Ok t, o2, ev2) ->
          (falsy t = true -> generate_requests evs = [])
          /\ (forall tx, t = Some tx -> truthy tx = true ->
              generate_requests evs = [(sent_text tx, prompt)])).
Proof.
  destruct (process_url_attempt e o) as (b & o' & evs & Hrun & Hatt).
  exists b, o', evs. split; [exact Hrun|].
  split; [apply (attempt_projections _ _ _ _ _ Hatt)|].
  intros o1' ev1' t' o2' ev2' H1' H2'.
  destruct Hatt as [o1 ev1 t o2 ev2 o3 ev3 H1 H2 Ht H3
                   | o1 ev1 tx o2 ev2 a o3 ev3 o4 ev4 H1 H2 Htx H3 Ha H4
                   | o1 ev1 tx o2 ev2 summary o3 ev3 o4 ev4 H1 H2 Htx H3 Hs H4];
    rewrite H1 in H1'; injection H1' as <- <-;
    rewrite H2 in H2'; injection H2' as <- <- <-;
    clear Hrun; steps_facts;
    cbn [generate_requests];
    rewrite ?generate_requests_app; cbn [generate_requests];
    rewrite ?generate_requests_app; cbn [generate_requests];
    repeat match goal with H : generate_requests _ = _ |- _ =>
             rewrite H; clear H end.
  - split; [reflexivity|].
    intros tx -> Htx. simpl in Ht. rewrite Htx in Ht. discriminate.
  - split; [intros Hf; simpl in Hf; rewrite Htx in Hf; discriminate|].
    intros tx' Heq _. injection Heq as <-. reflexivity.
  - split; [intros Hf; simpl in Hf; rewrite Htx in Hf; discriminate|].
    intros tx' Heq _. injection Heq as <-. reflexivity.
Qed.

Lemma successes_failures_length (outcomes : list bool) :
  successes outcomes + failures outcomes = Z.of_nat (List.length outcomes).
Proof.
  unfold successes, failures.
  induction outcomes as [|[] l IH]; cbn [filter negb List.length] in *; lia.
Qed.

Lemma status_column_writes_app (a b : list event) :
  status_column_writes (a ++ b)
  = (status_column_writes a ++ status_column_writes b)%list.
Proof.
  unfold status_column_writes. now rewrite sheet_writes_app, filter_app.
Qed.

Lemma process_url_summary e o :
  exists b o' evs,
    process_url C prompt e o = (Ok b, o', evs)
    /\ status_column_writes evs = attempt_statuses e b
    /\ transcript_requests evs = [url e].
Proof.
  destruct (process_url_attempt e o) as (b & o' & evs & Hrun & Hatt).
  exists b, o', evs. split; [exact Hrun|].
  destruct (attempt_projections _ _ _ _ _ Hatt) as ((text & Hw) & Ht & _).
  split; [|exact Ht].
  unfold status_column_writes. rewrite Hw. reflexivity.
Qed.

Lemma run_loop_trace
  (new_urls : list WorklistEntry) (processed_count error_count : Z) (o : O) :
  exists outcomes o' evs,
    run_loop C prompt new_urls processed_count error_count o
      = (Ok (processed_count + successes outcomes,
             error_count + failures outcomes), o', evs)
    /\ List.length outcomes = List.length new_urls
    /\ status_column_writes evs =
         flat_map (fun p => attempt_statuses (fst p) (snd p))
           (combine new_urls outcomes)
    /\ transcript_requests evs = map url new_urls.
Proof.
  revert processed_count error_count o.
  induction new_urls as [|e rest IH]; intros p0 q0 o.
  - exists [], o, []. unfold successes, failures. cbn.
    rewrite !Z.add_0_r. auto.
  - cbn [run_loop]. unfold bind at 1. unfold try_except, bind at 1.
    destruct (process_url_summary e o) as (b & o1 & ev1 & Hrun & Hw & Ht).
    rewrite Hrun. cbv beta iota.
    destruct b; unfold ret; cbv beta iota; cbn [fst snd];
      match goal with
      | |- context [run_loop C prompt rest ?p ?q ?o] =>
          destruct (IH p q o) as (outcomes & o' & evs & Hloop & Hlen & Hws & Hts)
      end; rewrite Hloop.
    + exists (true :: outcomes), o', (ev1 ++ evs)%list.
      split; [|split; [|split]].
      * replace (p0 + successes (true :: outcomes))
          with (p0 + 1 + successes outcomes)
          by (unfold successes; cbn [filter List.length]; lia).
        change (failures (true :: outcomes)) with (failures outcomes).
        now rewrite app_nil_r.
      * cbn [List.length]. now rewrite Hlen.
      * rewrite status_column_writes_app, Hw, Hws. reflexivity.
      * rewrite transcript_requests_app, Ht, Hts. reflexivity.
    + exists (false :: outcomes), o', (ev1 ++ evs)%list.
      split; [|split; [|split]].
      * replace (q0 + failures (false :: outcomes))
          with (q0 + 1 + failures outcomes)
          by (unfold failures; cbn [filter negb List.length]; lia).
        change (successes (false :: outcomes)) with (successes outcomes).
        now rewrite app_nil_r.
      * cbn [List.length]. now rewrite Hlen.
      * rewrite status_column_writes_app, Hw, Hws. reflexivity.
      * rewrite transcript_requests_app, Ht, Hts. reflexivity.
Qed.

(** The loop of [run] takes the entries one after the other, in the order
    of the worklist: it asks for the transcript of each entry once, and
    the writes to column C are, entry by entry, PROCESSING and then the
    terminal status of that entry; the two counters grow by the number of
    attempts that ended well and of those that did not. *)
Theorem run_loop_in_order
  (new_urls : list WorklistEntry) (processed_count error_count : Z) (o : O) :
  exists outcomes p q o' evs,
    run_loop C prompt new_urls processed_count error_count o
      = (Ok (p, q), o', evs)
    /\ List.length outcomes = List.length new_urls
    /\ p = processed_count + successes outcomes
    /\ q = error_count + failures outcomes
    /\ p + q = processed_count + error_count + Z.of_nat (List.length new_urls)
    /\ status_column_writes evs =
         flat_map (fun p => attempt_statuses (fst p) (snd p))
           (combine new_urls outcomes)
    /\ transcript_requests evs = map url new_urls.
Proof.
  destruct (run_loop_trace new_urls processed_count error_count o)
    as (outcomes & o' & evs & Hloop & Hlen & Hws & Hts).
  exists outcomes, (processed_count + successes outcomes),
    (error_count + failures outcomes), o', evs.
  split; [exact Hloop|]. split; [exact Hlen|].
  split; [reflexivity|]. split; [reflexivity|].
  split; [|split; [exact Hws | exact Hts]].
  pose proof (successes_failures_length outcomes) as Hsum.
  rewrite Hlen in Hsum. lia.
Qed.

Lemma scan_rows_none_eligible all_values k :
  (forall r, In r all_values -> eligible r = false) ->
  scan_rows all_values k = [].
Proof.
  revert k. induction all_values as [|r rest IH]; intros k H; [reflexivity|].
  rewrite scan_rows_cons, (H r (or_introl eq_refl)).
  apply IH. intros r' Hr'. apply H. now right.
Qed.

(** When no row of the store is eligible (each has a status, or a URL the
    classifier refuses), a run changes nothing: it writes no cell and asks
    nothing of the two services.  So a run over a store whose rows were
    all handled before does not handle any of them again. *)
Theorem run_idle_without_eligible_rows
  (o o1 : O) (all_values : list (list string)) :
  sheet_get_all_values C o = (Ok all_values, o1) ->
  (forall r, In r all_values -> eligible r = false) ->
  exists evs,
    run C prompt o = (Ok tt, o1, evs)
    /\ sheet_writes evs = []
    /\ transcript_requests evs = []
    /\ generate_requests evs = []
    /\ In (INFO, "No new URLs to process") (log_entries evs).
Proof.
  intros Hread Hnone.
  unfold run, bind at 1, logging at 1. cbv beta iota.
  unfold try_except, bind at 1.
  rewrite (get_new_urls_read_ok C _ _ _ Hread). cbv beta iota.
  rewrite (scan_rows_none_eligible _ _ Hnone). unfold logging.
  eexists. split; [reflexivity|].
  do 3 (split; [reflexivity|]).
  cbn [app log_entries]. right. right. left. reflexivity.
Qed.

(** A run over a store it could read makes one attempt per entry of the
    worklist, in the order of the rows: one request for each transcript,
    and in column C, entry by entry, PROCESSING and then the terminal
    status; it returns normally and, when there was work, logs the two
    counts, which add up to the number of entries. *)
Theorem run_processes_worklist_in_order
  (o o1 : O) (all_values : list (list string)) :
  sheet_get_all_values C o = (Ok all_values, o1) ->
  exists outcomes o' evs,
    run C prompt o = (Ok tt, o', evs)
    /\ List.length outcomes = List.length (scan_rows all_values 1)
    /\ status_column_writes evs =
         flat_map (fun p => attempt_statuses (fst p) (snd p))
           (combine (scan_rows all_values 1) outcomes)
    /\ transcript_requests evs = map url (scan_rows all_values 1)
    /\ successes outcomes + failures outcomes
       = Z.of_nat (List.length (scan_rows all_values 1))
    /\ (scan_rows all_values 1 <> [] ->
        In (INFO, "Processing complete. Success: "
                  ++ str_of_int (successes outcomes)
                  ++ ", Errors: " ++ str_of_int (failures outcomes))
           (log_entries evs)).
Proof.
  intros Hread.
  unfold run, bind at 1, logging at 1. cbv beta iota.
  unfold try_except, bind at 1.
  rewrite (get_new_urls_read_ok C _ _ _ Hread). cbv beta iota.
  destruct (scan_rows all_values 1) as [|e rest] eqn:Hscan.
  - unfold logging. exists [], o1. eexists. split; [reflexivity|].
    do 4 (split; [reflexivity|]). intros H. now contradiction H.
  - unfold bind.
    destruct (run_loop_trace (e :: rest) 0 0 o1)
      as (outcomes & o' & evs & Hloop & Hlen & Hws & Hts).
    rewrite Hloop. cbv beta iota. unfold logging. cbn [fst snd].
    exists outcomes, o'. eexists. split; [reflexivity|].
    split; [exact Hlen|].
    pose proof (successes_failures_length outcomes) as Hsum.
    split; [|split; [|split; [rewrite Hsum, Hlen; reflexivity|]]].
    + rewrite <- Hws. unfold status_column_writes.
      cbn [app sheet_writes]. rewrite sheet_writes_app.
      cbn [sheet_writes]. now rewrite app_nil_r.
    + rewrite <- Hts. cbn [app transcript_requests].
      rewrite transcript_requests_app.
      cbn [transcript_requests]. now rewrite app_nil_r.
    + intros _. cbn [app log_entries].
      rewrite log_entries_app. right. right. apply in_or_app. right.
      cbn [log_entries]. now left.
Qed.

End ProcessorMore.

(** ** Start-up *)

Section StartupProperties.

Context {O : Type} (C : Collaborators O) (S : Services O).
Variable prompt : string.
Variable getenv : environ.

Lemma validate_environment_passes (o : O) :
  missing_vars getenv = [] ->
  validate_environment getenv o
    = (Ok tt, o, [Log INFO "All environment variables validated"]).
Proof.
  intros Hm. unfold validate_environment. rewrite Hm. reflexivity.
Qed.

Lemma validate_environment_raises (o : O) :
  missing_vars getenv <> [] ->
  validate_environment getenv o
    = (Raise (Exception ("Missing required environment variables: "
                         ++ repr_list (missing_vars getenv))), o, []).
Proof.
  intros Hm. unfold validate_environment.
  destruct (missing_vars getenv); [now contradiction Hm | reflexivity].
Qed.

(** [validate_environment] passes exactly when none of the four required
    variables is missing, where a variable set to the empty string counts
    as missing like one that is not set; otherwise it raises, and the
    message lists the missing variables. *)
Theorem validate_environment_reports_missing (o : O) :
  (forall var,
      In var (missing_vars getenv) <->
      In var required_vars /\ (getenv var = None \/ getenv var = Some ""))
  /\ (missing_vars getenv = [] ->
      validate_environment getenv o
        = (Ok tt, o, [Log INFO "All environment variables validated"]))
  /\ (missing_vars getenv <> [] ->
      validate_environment getenv o
        = (Raise (Exception ("Missing required environment variables: "
                             ++ repr_list (missing_vars getenv))), o, [])).
Proof.
  split; [|split].
  - intros var. unfold missing_vars. rewrite filter_In.
    split; intros [Hin Hv]; (split; [exact Hin|]).
    + destruct (getenv var) as [[|c v]|]; try discriminate; auto.
    + destruct Hv as [-> | ->]; reflexivity.
  - apply validate_environment_passes.
  - apply validate_environment_raises.
Qed.

Lemma init_missing_vars o :
  missing_vars getenv <> [] ->
  __init__ S getenv o
    = (Raise (Exception ("Missing required environment variables: "
                         ++ repr_list (missing_vars getenv))), o, []).
Proof.
  intros Hm. unfold __init__, bind at 1.
  rewrite (validate_environment_raises o Hm). reflexivity.
Qed.

Lemma init_no_worksheet o e o1 :
  missing_vars getenv = [] ->
  open_worksheet S (GOOGLE_CREDENTIALS (config_of getenv))
    (SHEET_NAME (config_of getenv)) (WORKSHEET_NAME (config_of getenv)) o
    = (Raise e, o1) ->
  __init__ S getenv o
    = (Raise e, o1,
       [Log INFO "All environment variables validated";
        Log ERROR ("Failed to setup Google Sheets: " ++ str_of_exn e)]).
Proof.
  intros Hm Hopen. unfold __init__, bind at 1.
  rewrite (validate_environment_passes o Hm). cbv beta iota.
  unfold bind at 1, setup_google_sheets, try_except, bind at 1, perform.
  rewrite Hopen. reflexivity.
Qed.

(** [main] never raises.  With a required variable missing it stops at
    once: nothing is asked of any service, and the one event is the log
    entry of the fatal error, which names the missing variables.  When the
    worksheet cannot be opened, the two clients are not built and the run
    is not started: the failure is logged twice, by the set-up and as the
    fatal error. *)
Theorem main_contains_startup_failures (o : O) :
  exists o' evs,
    main C S prompt getenv o = (Ok tt, o', evs)
    /\ (missing_vars getenv <> [] ->
        o' = o
        /\ evs = [Log ERROR ("Fatal error: Missing required environment variables: "
                             ++ repr_list (missing_vars getenv))])
    /\ (missing_vars getenv = [] ->
        forall e o1,
          open_worksheet S (GOOGLE_CREDENTIALS (config_of getenv))
            (SHEET_NAME (config_of getenv)) (WORKSHEET_NAME (config_of getenv)) o
            = (Raise e, o1) ->
          o' = o1
          /\ evs = [Log INFO "All environment variables validated";
                    Log ERROR ("Failed to setup Google Sheets: " ++ str_of_exn e);
                    Log ERROR ("Fatal error: " ++ str_of_exn e)]).
Proof.
  unfold main, try_except, bind at 1.
  destruct (__init__ S getenv o) as [[r o1] ev1] eqn:Hinit.
  destruct r as [[]|e].
  - destruct (run_total C prompt o1) as (o' & evs & Hrun). rewrite Hrun.
    eexists _, _. split; [reflexivity|]. split.
    + intros Hm. rewrite (init_missing_vars o Hm) in Hinit. discriminate.
    + intros Hm e o2 Hopen.
      rewrite (init_no_worksheet o e o2 Hm Hopen) in Hinit. discriminate.
  - unfold logging. eexists _, _. split; [reflexivity|]. split.
    + intros Hm. rewrite (init_missing_vars o Hm) in Hinit.
      injection Hinit as <- <- <-. split; reflexivity.
    + intros Hm e' o2 Hopen.
      rewrite (init_no_worksheet o e' o2 Hm Hopen) in Hinit.
      injection Hinit as <- <- <-. split; reflexivity.
Qed.

End StartupProperties.

Lemma validate_environment_reports_missing_witness :
  missing_vars getenv_partial = ["SUPADATA_API_KEY"; "SHEET_NAME"]
  /\ @validate_environment unit getenv_partial tt
     = (Raise (Exception "Missing required environment variables: ['SUPADATA_API_KEY', 'SHEET_NAME']"),
        tt, [])
  /\ @validate_environment unit getenv_complete tt
     = (Ok tt, tt, [Log INFO "All environment variables validated"]).
Proof.
  split; [reflexivity|]. split.
  - apply (proj2 (proj2 (validate_environment_reports_missing
                           getenv_partial tt))).
    discriminate.
  - apply (proj1 (proj2 (validate_environment_reports_missing
                           getenv_complete tt))).
    reflexivity.
Defined.

Lemma main_contains_startup_failures_witness :
  (exists evs,
      main (scripted (Ok []) write_ok transcript_hello generate_summary)
           services_ok "PROMPT" getenv_partial tt = (Ok tt, tt, evs)
      /\ evs = [Log ERROR "Fatal error: Missing required environment variables: ['SUPADATA_API_KEY', 'SHEET_NAME']"])
  /\ (exists evs,
         main (scripted (Ok []) write_ok transcript_hello generate_summary)
              services_no_sheet "PROMPT" getenv_complete tt = (Ok tt, tt, evs)
         /\ evs = [Log INFO "All environment variables validated";
                   Log ERROR "Failed to setup Google Sheets: SpreadsheetNotFound";
                   Log ERROR "Fatal error: SpreadsheetNotFound"]).
Proof.
  split.
  - destruct (main_contains_startup_failures
                (scripted (Ok []) write_ok transcript_hello generate_summary)
                services_ok "PROMPT" getenv_partial tt)
      as (o' & evs & Hrun & Hmiss & _).
    destruct Hmiss as [Ho Hev]; [discriminate|]. subst o'.
    exists evs. split; [exact Hrun | exact Hev].
  - destruct (main_contains_startup_failures
                (scripted (Ok []) write_ok transcript_hello generate_summary)
                services_no_sheet "PROMPT" getenv_complete tt)
      as (o' & evs & Hrun & _ & Hopen).
    destruct (Hopen eq_refl (Exception "SpreadsheetNotFound") tt eq_refl)
      as [Ho Hev]. subst o'.
    exists evs. split; [exact Hrun | exact Hev].
Defined.

(** ** A run on a worksheet that keeps what is written to it *)

Lemma keeps_refl w : keeps w w.
Proof. repeat split; auto. Qed.

Lemma keeps_trans w1 w2 w3 : keeps w1 w2 -> keeps w2 w3 -> keeps w1 w3.
Proof.
  intros (Hn & Ha & Hc) (Hn' & Ha' & Hc'). repeat split.
  - now rewrite Hn'.
  - intros c H. now rewrite Ha', Ha.
  - intros c H Ht. apply Hc'; auto.
Qed.

Lemma startswith_one a c s :
  startswith (String a "") (String c s) = Ascii.eqb a c.
Proof. simpl. now rewrite andb_true_r. Qed.

Lemma keeps_set_status w cell status :
  startswith "C" cell = true ->
  truthy (strip status) = true ->
  keeps w {| cell_value := set_cell (cell_value w) cell status;
             row_count := row_count w |}.
Proof.
  intros Hcell Hs. repeat split; cbn [cell_value row_count]; unfold set_cell.
  - intros c Hc. destruct (String.eqb_spec c cell) as [->|_]; [|reflexivity].
    destruct cell as [|a cell]; [discriminate|].
    rewrite startswith_one in Hcell, Hc.
    apply Ascii.eqb_eq in Hcell, Hc. subst a. discriminate.
  - intros c Hc Ht. now destruct (String.eqb c cell).
Qed.

Lemma keeps_set_result w cell text :
  startswith "B" cell = true ->
  keeps w {| cell_value := set_cell (cell_value w) cell text;
             row_count := row_count w |}.
Proof.
  intros Hcell. repeat split; cbn [cell_value row_count]; unfold set_cell.
  - intros c Hc. destruct (String.eqb_spec c cell) as [->|_]; [|reflexivity].
    destruct cell as [|a cell]; [discriminate|].
    rewrite startswith_one in Hcell, Hc.
    apply Ascii.eqb_eq in Hcell, Hc. subst a. discriminate.
  - intros c Hc Ht. destruct (String.eqb_spec c cell) as [->|_]; [|exact Ht].
    destruct cell as [|a cell]; [discriminate|].
    rewrite startswith_one in Hcell, Hc.
    apply Ascii.eqb_eq in Hcell, Hc. subst a. discriminate.
Qed.

Lemma nth_error_sheet_rows m k n i :
  (i < n)%nat ->
  nth_error (sheet_rows m k n) i = Some (sheet_row m (k + Z.of_nat i)).
Proof.
  revert k i. induction n as [|n IH]; intros k i Hi; [lia|].
  destruct i as [|i]; cbn [sheet_rows nth_error].
  - now rewrite Z.add_0_r.
  - rewrite IH by lia. do 2 f_equal. lia.
Qed.

Lemma In_sheet_rows m k n r :
  In r (sheet_rows m k n) ->
  exists i, (i < n)%nat /\ r = sheet_row m (k + Z.of_nat i).
Proof.
  revert k. induction n as [|n IH]; intros k; [intros []|].
  cbn [sheet_rows]. intros [<- | H].
  - exists 0%nat. split; [lia|]. now rewrite Z.add_0_r.
  - apply IH in H. destruct H as (i & Hi & ->).
    exists (S i). split; [lia|]. f_equal. lia.
Qed.

Section Memory.

Context {O : Type}.
Variable transcript : string -> O -> result transcript_response * O.
Variable generate : string -> string -> O -> result gen_response * O.
Variable prompt : string.

Lemma column_C_is_not_B c x :
  startswith "C" c = true -> String.eqb c ("B" ++ x) = false.
Proof.
  destruct c as [|a c]; [discriminate|].
  rewrite startswith_one. intros H. apply Ascii.eqb_eq in H. subst a.
  reflexivity.
Qed.

(** A status write on the worksheet: the cell of column C it names holds
    the status afterwards, and no other cell of column C changes. *)
Lemma update_sheet_status_memory row status result w o :
  truthy (strip status) = true ->
  exists w' evs,
    update_sheet_status (memory_worksheet transcript generate)
      row status result (w, o) = (Ok tt, (w', o), evs)
    /\ keeps w w'
    /\ cell_value w' ("C" ++ str_of_int row) = status
    /\ forall c, startswith "C" c = true ->
         cell_value w' c
         = if String.eqb c ("C" ++ str_of_int row) then status
           else cell_value w c.
Proof.
  intros Hs. destruct (truthy result) eqn:Ht.
  - rewrite (update_sheet_status_with_result
               (memory_worksheet transcript generate) row status result (w, o)
               _ _ _ _ Ht eq_refl eq_refl).
    eexists _, _. split; [reflexivity|]. cbn [fst snd cell_value row_count].
    split; [|split].
    + eapply keeps_trans.
      * apply (keeps_set_result w ("B" ++ str_of_int row) (cell_text result)).
        reflexivity.
      * apply (keeps_set_status
                 {| cell_value := set_cell (cell_value w)
                                    ("B" ++ str_of_int row) (cell_text result);
                    row_count := row_count w |}
                 ("C" ++ str_of_int row) status); [reflexivity | exact Hs].
    + unfold set_cell at 1. now rewrite String.eqb_refl.
    + intros c Hc. unfold set_cell.
      now rewrite (column_C_is_not_B c (str_of_int row) Hc).
  - rewrite (update_sheet_status_without_result
               (memory_worksheet transcript generate) row status result (w, o)
               _ _ Ht eq_refl).
    eexists _, _. split; [reflexivity|]. cbn [fst snd cell_value row_count].
    split; [|split].
    + apply keeps_set_status; [reflexivity | exact Hs].
    + unfold set_cell. now rewrite String.eqb_refl.
    + intros c Hc. reflexivity.
Qed.

Lemma get_transcript_memory url w o r s evs :
  get_transcript (memory_worksheet transcript generate) url (w, o)
    = (r, s, evs) ->
  fst s = w.
Proof.
  intros H.
  destruct (get_transcript_inv (memory_worksheet transcript generate)
              _ _ _ _ _ H) as (-> & _).
  cbn. now destruct (transcript url o).
Qed.

Lemma analyze_with_gemini_memory tx w o r s evs :
  analyze_with_gemini (memory_worksheet transcript generate) tx prompt (w, o)
    = (r, s, evs) ->
  fst s = w.
Proof.
  intros H.
  destruct (analyze_with_gemini_inv (memory_worksheet transcript generate)
              _ _ _ _ _ _ H) as (-> & _).
  cbn. now destruct (generate (sent_text tx) prompt o).
Qed.

(** Takes the state after a status write out of its equation. *)
Ltac status_written H Hs :=
  match type of H with
  | update_sheet_status _ ?row ?status ?result (?w, ?o) = (_, ?s, _) =>
      let w' := fresh "w" in
      let evs := fresh "evs" in
      let Heq := fresh "Heq" in
      let Hk := fresh "Hk" in
      let Hc := fresh "Hc" in
      let Hcol := fresh "Hcol" in
      destruct (update_sheet_status_memory row status result w o Hs)
        as (w' & evs & Heq & Hk & Hc & Hcol);
      rewrite H in Heq; injection Heq as -> _
  end.

(** The two status writes of an attempt, PROCESSING and then the terminal
    status, seen from the cells of column C. *)
Lemma two_status_writes (m m1 m2 : cells) (cell terminal : string) :
  (forall c, startswith "C" c = true ->
     m1 c = if String.eqb c cell then "PROCESSING" else m c) ->
  (forall c, startswith "C" c = true ->
     m2 c = if String.eqb c cell then terminal else m1 c) ->
  forall c, startswith "C" c = true ->
    m2 c = if String.eqb c cell then terminal else m c.
Proof.
  intros H1 H2 c Hc. rewrite (H2 c Hc), (H1 c Hc).
  now destruct (String.eqb c cell).
Qed.

(** An attempt leaves its terminal status in column C of its row, changes
    no other cell of column C, and keeps the rest of the worksheet in the
    sense of [keeps]. *)
Lemma process_url_memory e w o :
  exists b w' o' evs,
    process_url (memory_worksheet transcript generate) prompt e (w, o)
      = (Ok b, (w', o'), evs)
    /\ keeps w w'
    /\ forall c, startswith "C" c = true ->
         cell_value w' c
         = if String.eqb c ("C" ++ str_of_int (row e)) then terminal_status b
           else cell_value w c.
Proof.
  destruct (process_url_attempt (memory_worksheet transcript generate)
              prompt e (w, o))
    as (b & s' & evs & Hrun & Hatt).
  exists b. destruct Hatt as
      [s1 ev1 t s2 ev2 s3 ev3 H1 H2 Ht H3
      | s1 ev1 tx s2 ev2 a s3 ev3 s4 ev4 H1 H2 Htx H3 Ha H4
      | s1 ev1 tx s2 ev2 summary s3 ev3 s4 ev4 H1 H2 Htx H3 Hs H4].
  - status_written H1 (eq_refl : truthy (strip "PROCESSING") = true).
    pose proof (get_transcript_memory _ _ _ _ _ _ H2) as Hf.
    destruct s2 as [w2 o2]. cbn [fst] in Hf. subst w2.
    status_written H3 (eq_refl : truthy (strip "ERROR") = true).
    eexists _, _, _. split; [exact Hrun|]. split.
    + eapply keeps_trans; eassumption.
    + eapply two_status_writes; eassumption.
  - status_written H1 (eq_refl : truthy (strip "PROCESSING") = true).
    pose proof (get_transcript_memory _ _ _ _ _ _ H2) as Hf.
    destruct s2 as [w2 o2]. cbn [fst] in Hf. subst w2.
    pose proof (analyze_with_gemini_memory _ _ _ _ _ _ H3) as Hf.
    destruct s3 as [w3 o3]. cbn [fst] in Hf. subst w3.
    status_written H4 (eq_refl : truthy (strip "ERROR") = true).
    eexists _, _, _. split; [exact Hrun|]. split.
    + eapply keeps_trans; eassumption.
    + eapply two_status_writes; eassumption.
  - status_written H1 (eq_refl : truthy (strip "PROCESSING") = true).
    pose proof (get_transcript_memory _ _ _ _ _ _ H2) as Hf.
    destruct s2 as [w2 o2]. cbn [fst] in Hf. subst w2.
    pose proof (analyze_with_gemini_memory _ _ _ _ _ _ H3) as Hf.
    destruct s3 as [w3 o3]. cbn [fst] in Hf. subst w3.
    status_written H4 (eq_refl : truthy (strip "COMPLETED") = true).
    eexists _, _, _. split; [exact Hrun|]. split.
    + eapply keeps_trans; eassumption.
    + eapply two_status_writes; eassumption.
Qed.

(** After the loop, every entry of the worklist has a terminal status in
    column C of its row, and a cell of column C that held a terminal
    status before still holds one. *)
Lemma run_loop_memory new_urls p q w o :
  exists p' q' w' o' evs,
    run_loop (memory_worksheet transcript generate) prompt new_urls p q (w, o)
      = (Ok (p', q'), (w', o'), evs)
    /\ keeps w w'
    /\ (forall c, startswith "C" c = true ->
          (exists ok, cell_value w c = terminal_status ok) ->
          exists ok, cell_value w' c = terminal_status ok)
    /\ forall e, In e new_urls ->
         exists ok,
           cell_value w' ("C" ++ str_of_int (row e)) = terminal_status ok.
Proof.
  revert p q w o. induction new_urls as [|e rest IH]; intros p q w o.
  - exists p, q, w, o, []. split; [reflexivity|].
    split; [apply keeps_refl|]. split; [auto | intros e []].
  - cbn [run_loop]. unfold bind at 1. unfold try_except, bind at 1.
    destruct (process_url_memory e w o)
      as (b & w1 & o1 & ev1 & Hrun & Hk & Hcol).
    rewrite Hrun. cbv beta iota.
    assert (Hpres : forall c, startswith "C" c = true ->
                      (exists ok, cell_value w c = terminal_status ok) ->
                      exists ok, cell_value w1 c = terminal_status ok).
    { intros c Hc Hold. rewrite (Hcol c Hc).
      destruct (String.eqb c ("C" ++ str_of_int (row e)));
        [now exists b | exact Hold]. }
    assert (Hnow : exists ok,
               cell_value w1 ("C" ++ str_of_int (row e)) = terminal_status ok).
    { exists b. rewrite (Hcol ("C" ++ str_of_int (row e)) eq_refl).
      now rewrite String.eqb_refl. }
    destruct b; unfold ret; cbv beta iota; cbn [fst snd];
      match goal with
      | |- context [run_loop _ prompt rest ?p1 ?q1 (w1, o1)] =>
          destruct (IH p1 q1 w1 o1)
            as (p' & q' & w' & o' & evs & Hloop & Hk' & Hpres' & Hall)
      end; rewrite Hloop; eexists _, _, _, _, _; (split; [reflexivity|]);
      (split; [eapply keeps_trans; eassumption|]);
      (split; [intros c Hc Hold; apply (Hpres' c Hc), (Hpres c Hc Hold)|]);
      intros e' [<- | Hin]; auto;
      apply (Hpres' ("C" ++ str_of_int (row e)) eq_refl Hnow).
Qed.

(** On a worksheet that keeps what is written to it, a run settles every
    row that was eligible: the status cell of such a row holds COMPLETED
    or ERROR afterwards, none is left at PROCESSING.  Column A and the
    number of rows are as before and a status that was set is still set,
    so the scanner finds nothing right after the run: the next run handles
    no record a second time. *)
Theorem run_leaves_nothing_to_scan (w : Worksheet) (o : O) :
  exists w' o' evs,
    run (memory_worksheet transcript generate) prompt (w, o)
      = (Ok tt, (w', o'), evs)
    /\ keeps w w'
    /\ (forall i,
          (i < row_count w)%nat ->
          eligible (sheet_row (cell_value w) (1 + Z.of_nat i)) = true ->
          status_cell (sheet_row (cell_value w') (1 + Z.of_nat i)) = "COMPLETED"
          \/ status_cell (sheet_row (cell_value w') (1 + Z.of_nat i)) = "ERROR")
    /\ exists evs',
        get_new_urls (memory_worksheet transcript generate) (w', o')
          = (Ok [], (w', o'), evs').
Proof.
  assert (Hrows : forall w',
             (forall e,
                 In e (scan_rows (sheet_rows (cell_value w) 1 (row_count w)) 1) ->
                 exists ok,
                   cell_value w' ("C" ++ str_of_int (row e))
                   = terminal_status ok) ->
             forall i,
               (i < row_count w)%nat ->
               eligible (sheet_row (cell_value w) (1 + Z.of_nat i)) = true ->
               status_cell (sheet_row (cell_value w') (1 + Z.of_nat i))
               = "COMPLETED"
               \/ status_cell (sheet_row (cell_value w') (1 + Z.of_nat i))
                  = "ERROR").
  { intros w' Hall i Hi He.
    destruct (Hall {| url := strip (url_cell (sheet_row (cell_value w)
                                                (1 + Z.of_nat i)));
                      row := 1 + Z.of_nat i |}) as [ok Hok].
    - apply scan_rows_In.
      exists i, (sheet_row (cell_value w) (1 + Z.of_nat i)).
      split; [now apply nth_error_sheet_rows|]. now split.
    - cbn [row] in Hok. unfold status_cell, sheet_row. cbn [nth].
      rewrite Hok. destruct ok; [now left | now right]. }
  assert (Hdone : forall w' o',
             keeps w w' ->
             (forall e,
                 In e (scan_rows (sheet_rows (cell_value w) 1 (row_count w)) 1) ->
                 exists ok,
                   cell_value w' ("C" ++ str_of_int (row e))
                   = terminal_status ok) ->
             exists evs',
               get_new_urls (memory_worksheet transcript generate) (w', o')
                 = (Ok [], (w', o'), evs')).
  { intros w' o' (Hn & Ha & Hc) Hall.
    rewrite (get_new_urls_read_ok (memory_worksheet transcript generate)
               (w', o') _ (w', o') eq_refl).
    cbn [fst]. rewrite scan_rows_none_eligible; [now eexists|].
    intros r Hr. apply In_sheet_rows in Hr. destruct Hr as (i & Hi & ->).
    destruct (eligible (sheet_row (cell_value w') (1 + Z.of_nat i))) eqn:He;
      [|reflexivity].
    unfold eligible, sheet_row, url_cell, status_cell in He. cbn [nth] in He.
    apply andb_true_iff in He. destruct He as [He Hs].
    apply negb_true_iff in Hs.
    rewrite (Ha ("A" ++ str_of_int (1 + Z.of_nat i)) eq_refl) in He.
    destruct (truthy (strip (cell_value w ("C" ++ str_of_int (1 + Z.of_nat i)))))
      eqn:Hold.
    - rewrite (Hc ("C" ++ str_of_int (1 + Z.of_nat i)) eq_refl Hold) in Hs.
      discriminate.
    - destruct (Hall {| url := strip (cell_value w
                                        ("A" ++ str_of_int (1 + Z.of_nat i)));
                        row := 1 + Z.of_nat i |}) as [ok Hok].
      + apply scan_rows_In.
        exists i, (sheet_row (cell_value w) (1 + Z.of_nat i)).
        rewrite Hn in Hi.
        split; [now apply nth_error_sheet_rows|]. split; [|reflexivity].
        unfold eligible, sheet_row, url_cell, status_cell. cbn [nth].
        now rewrite He, Hold.
      + cbn [row] in Hok. rewrite Hok in Hs. now destruct ok. }
  unfold run, bind at 1, logging at 1. cbv beta iota.
  unfold try_except, bind at 1.
  rewrite (get_new_urls_read_ok (memory_worksheet transcript generate)
             (w, o) _ (w, o) eq_refl).
  cbv beta iota. cbn [fst].
  destruct (scan_rows (sheet_rows (cell_value w) 1 (row_count w)) 1)
    as [|e rest] eqn:Hscan.
  - unfold logging. eexists _, _, _. split; [reflexivity|].
    split; [apply keeps_refl|].
    split; [apply Hrows; intros e [] |].
    apply Hdone; [apply keeps_refl | intros e []].
  - unfold bind.
    destruct (run_loop_memory (e :: rest) 0 0 w o)
      as (p' & q' & w' & o' & evs & Hloop & Hk & _ & Hall).
    rewrite Hloop. cbv beta iota. unfold logging.
    eexists _, _, _. split; [reflexivity|]. split; [exact Hk|].
    split; [now apply Hrows | now apply Hdone].
Qed.

End Memory.

Lemma run_idle_without_eligible_rows_witness :
  exists evs,
    run (scripted (Ok [["https://youtu.be/abc"; "a summary"; "COMPLETED"];
                       ["see above"; ""; ""]])
                  write_ok transcript_hello generate_summary) "PROMPT" tt
    = (Ok tt, tt, evs)
    /\ sheet_writes evs = []
    /\ transcript_requests evs = []
    /\ generate_requests evs = []
    /\ In (INFO, "No new URLs to process") (log_entries evs).
Proof.
  apply (run_idle_without_eligible_rows
           (scripted (Ok [["https://youtu.be/abc"; "a summary"; "COMPLETED"];
                          ["see above"; ""; ""]])
                     write_ok transcript_hello generate_summary)
           "PROMPT" tt tt
           [["https://youtu.be/abc"; "a summary"; "COMPLETED"];
            ["see above"; ""; ""]] eq_refl).
  intros r [<- | [<- | []]]; reflexivity.
Defined.

Lemma run_processes_worklist_in_order_witness :
  exists outcomes o' evs,
    run (scripted (Ok [["https://youtu.be/abc"]; []; ["https://x.com/v"; ""]])
                  write_ok transcript_hello generate_summary) "PROMPT" tt
    = (Ok tt, o', evs)
    /\ List.length outcomes = 2%nat
    /\ status_column_writes evs =
         flat_map (fun p => attempt_statuses (fst p) (snd p))
           (combine [{| url := "https://youtu.be/abc"; row := 1 |};
                     {| url := "https://x.com/v"; row := 3 |}] outcomes)
    /\ transcript_requests evs = ["https://youtu.be/abc"; "https://x.com/v"]
    /\ successes outcomes + failures outcomes = 2.
Proof.
  destruct (run_processes_worklist_in_order
              (scripted (Ok [["https://youtu.be/abc"]; []; ["https://x.com/v"; ""]])
                        write_ok transcript_hello generate_summary)
              "PROMPT" tt tt
              [["https://youtu.be/abc"]; []; ["https://x.com/v"; ""]] eq_refl)
    as (outcomes & o' & evs & Hrun & Hlen & Hw & Ht & Hsum & _).
  exists outcomes, o', evs.
  split; [exact Hrun|]. split; [exact Hlen|]. split; [exact Hw|].
  split; [exact Ht | exact Hsum].
Defined.

(** The whitespace [strip] removes includes the no-break space (160) and
    the next-line character (133): a status cell holding only a no-break
    space counts as empty, so the row is scanned, and a URL cell padded
    with these characters gives the trimmed URL. *)
Example scan_rows_no_break_space :
  scan_rows [["https://youtu.be/abc"; ""; String (ascii_of_nat 160) ""]] 1
  = [{| url := "https://youtu.be/abc"; row := 1 |}]
  /\ scan_rows
       [[String (ascii_of_nat 160)
           ("https://youtu.be/abc" ++ String (ascii_of_nat 133) " ")]] 1
     = [{| url := "https://youtu.be/abc"; row := 1 |}].
Proof. split; reflexivity. Qed.
